(** * APIGW: the connection manager of [app.py]

    A shallow embedding of [ConnectionManager] (app.py, lines 28-106) and of
    the part of Python's [queue.Queue] it uses, followed by the properties
    of the admission controller.

    Modelling choices.
    - Python [float] is IEEE binary64: Rocq's primitive floats.  Python [int]
      is unbounded: [Z].
    - [self.connections] is a [dict] keyed by [str]: a [gmap string].
    - [self.lock] is a [threading.Lock]: not re-entrant.  Its state is the
      field [lock]; a [with self.lock:] entered while the lock is held never
      proceeds, which is the outcome [Blocks].
    - Both methods run their whole body under [self.lock], so every
      interleaving of threads is a sequence of complete calls: [run].
    - What a call reads from its surroundings ([uuid.uuid4()], [time.time()],
      Flask's [request]) is an argument of the call. *)

From Stdlib Require Import ZArith Lia Ascii String PrimFloat SpecFloat FloatOps.
From stdpp Require Import gmap strings list.

Local Open Scope Z_scope.

(** ** Python values and exceptions *)

(** The values that reach the [timeout] parameter of [start_connection]: an
    [int] (the annotation, the default 30) and a [str] (line 93 passes a
    connection id). *)
Inductive pyarg :=
  | PyInt (z : Z)
  | PyStr (s : string).

Inductive exn :=
  | Full               (* queue.Full *)
  | Empty              (* queue.Empty *)
  | ValueError
  | TypeError
  | ZeroDivisionError
  | OverflowError
  | RuntimeError.

(** How a method call ends: it returns, it raises, or the calling thread
    waits for ever.  Each carries the state the call leaves behind. *)
Inductive outcome (S A : Type) :=
  | Returns (s : S) (r : A)
  | Raises (s : S) (e : exn)
  | Blocks (s : S).
Arguments Returns {S A} s r.
Arguments Raises {S A} s e.
Arguments Blocks {S A} s.

Definition state_of {S A} (o : outcome S A) : S :=
  match o with
  | Returns s _ => s
  | Raises s _ => s
  | Blocks s => s
  end.

(** [int] to [float] as CPython converts it: rounded to nearest, ties to
    even. *)
Definition float_of_int (z : Z) : float :=
  SF2Prim (binary_normalize prec emax z 0 false).

(** The least magnitude whose rounding leaves the binary64 range; CPython
    raises [OverflowError] from there on. *)
Definition float_int_limit : Z := 2 ^ 1024 - 2 ^ 970.

(** [x / n] for a float [x] and an int [n]: the int is converted first, then
    a zero divisor is refused. *)
Definition py_truediv (x : float) (n : Z) : exn + float :=
  if float_int_limit <=? Z.abs n then inl OverflowError
  else if n =? 0 then inl ZeroDivisionError
  else inr (PrimFloat.div x (float_of_int n)).

(** ** Flask's request, as far as [start_connection] reads it *)

Definition lower_ascii (c : ascii) : ascii :=
  let n := nat_of_ascii c in
  if (65 <=? n)%nat && (n <=? 90)%nat then ascii_of_nat (n + 32) else c.

Fixpoint lower (s : string) : string :=
  match s with
  | EmptyString => EmptyString
  | String c r => String (lower_ascii c) (lower r)
  end.

Record request := {
  remote_addr : option string;
  path : string;
  method : string;
  headers : list (string * string)
}.

(** [request.headers.get(key, default)]: first header of that name, names
    compared without regard to case. *)
Fixpoint headers_get (h : list (string * string)) (key default : string) : string :=
  match h with
  | [] => default
  | (k, v) :: r =>
      if String.eqb (lower k) (lower key) then v else headers_get r key default
  end.

(** [dict(pairs)]: a later pair replaces an earlier one with the same key. *)
Definition py_dict (l : list (string * string)) : gmap string string :=
  foldl (fun m kv => <[kv.1 := kv.2]> m) ∅ l.

(** What one run of [start_connection] draws from outside the manager. *)
Record call_env := {
  uuid_conn : string;     (* str(uuid.uuid4()), line 48 *)
  req : request;          (* flask.request *)
  now : float;            (* time.time(), line 64 *)
  uuid_req : string       (* str(uuid.uuid4()), line 68 *)
}.

(** ** [Connection] (lines 16-26) *)

Module Connection.
Record t := {
  id : string;
  client_ip : option string;
  start_time : float;
  endpoint : string;
  method : string;
  user_agent : string;
  request_id : string;
  headers : gmap string string;
  rate_limit_remaining : Z
}.
End Connection.

(** The record built at lines 61-71. *)
Definition new_connection (conn_id : string) (env : call_env) : Connection.t :=
  {| Connection.id := conn_id;
     Connection.client_ip := remote_addr (req env);
     Connection.start_time := now env;
     Connection.endpoint := path (req env);
     Connection.method := method (req env);
     Connection.user_agent := headers_get (headers (req env)) "User-Agent" "unknown";
     Connection.request_id := headers_get (headers (req env)) "X-Request-ID" (uuid_req env);
     Connection.headers := py_dict (headers (req env));
     Connection.rate_limit_remaining := 100 |}.

(** ** [queue.Queue], as far as the manager uses it *)

Module Queue.
(** [items] is the deque, oldest first.  [put_log] and [get_log] are
    history variables: every item ever put, every item ever got, in order.
    No operation reads them. *)
Record t := {
  maxsize : Z;
  items : list string;
  put_log : list string;
  get_log : list string
}.

(** [queue.Queue(maxsize)]. *)
Definition new (maxsize : Z) : t :=
  {| maxsize := maxsize; items := []; put_log := []; get_log := [] |}.

Definition _put (q : t) (item : string) : t :=
  {| maxsize := maxsize q;
     items := items q ++ [item];
     put_log := put_log q ++ [item];
     get_log := get_log q |}.

(** [put(item, timeout=timeout)], blocking.  A bound exists only when
    [maxsize > 0]; then the timeout is checked, and a full queue makes the
    caller wait.  The manager calls [put] holding its lock and takes items
    out only under that lock, so nothing makes room during the wait and it
    ends in [Full]. *)
Definition put (q : t) (item : string) (timeout : pyarg) : exn + t :=
  if 0 <? maxsize q then
    match timeout with
    | PyStr _ => inl TypeError           (* timeout < 0 on a str *)
    | PyInt t =>
        if t <? 0 then inl ValueError
        else if maxsize q <=? Z.of_nat (length (items q)) then inl Full
        else inr (_put q item)
    end
  else inr (_put q item).

(** [get_nowait()]: the leftmost item, or [Empty]. *)
Definition get_nowait (q : t) : exn + (string * t) :=
  match items q with
  | [] => inl Empty
  | item :: rest =>
      inr (item, {| maxsize := maxsize q;
                    items := rest;
                    put_log := put_log q;
                    get_log := get_log q ++ [item] |})
  end.
End Queue.

(** ** The metrics dictionary (lines 36-44) *)

Module Metrics.
Record t := {
  total_requests : Z;
  active_connections : Z;
  queued_connections : Z;
  rejected_connections : Z;
  avg_response_time : float;
  total_response_time : float
}.
End Metrics.

(** ** [ConnectionManager] (lines 28-106) *)

Module ConnectionManager.
Import Metrics.

Record t := {
  max_concurrent : Z;
  connections : gmap string Connection.t;
  lock : bool;                       (* True while some thread holds it *)
  connection_queue : Queue.t;
  metrics : Metrics.t
}.

Definition _initialize_metrics : Metrics.t :=
  {| total_requests := 0;
     active_connections := 0;
     queued_connections := 0;
     rejected_connections := 0;
     avg_response_time := 0;
     total_response_time := 0 |}.

Definition __init__ (max_concurrent : Z) : t :=
  {| max_concurrent := max_concurrent;
     connections := ∅;
     lock := false;
     connection_queue := Queue.new 0;
     metrics := _initialize_metrics |}.

(** Field updates. *)
Definition set_lock (b : bool) (self : t) : t :=
  {| max_concurrent := max_concurrent self;
     connections := connections self;
     lock := b;
     connection_queue := connection_queue self;
     metrics := metrics self |}.

Definition set_connections (c : gmap string Connection.t) (self : t) : t :=
  {| max_concurrent := max_concurrent self;
     connections := c;
     lock := lock self;
     connection_queue := connection_queue self;
     metrics := metrics self |}.

Definition set_queue (q : Queue.t) (self : t) : t :=
  {| max_concurrent := max_concurrent self;
     connections := connections self;
     lock := lock self;
     connection_queue := q;
     metrics := metrics self |}.

Definition set_metrics (m : Metrics.t) (self : t) : t :=
  {| max_concurrent := max_concurrent self;
     connections := connections self;
     lock := lock self;
     connection_queue := connection_queue self;
     metrics := m |}.

Definition len (self : t) : Z := Z.of_nat (size (connections self)).

(** [with self.lock: body].  Entering waits for the lock; leaving releases
    it, on a return and on an exception alike, and releasing a lock nobody
    holds raises [RuntimeError]. *)
Definition with_lock {A} (self : t) (body : t -> outcome t A) : outcome t A :=
  if lock self then Blocks self
  else
    match body (set_lock true self) with
    | Returns s r =>
        if lock s then Returns (set_lock false s) r else Raises s RuntimeError
    | Raises s e =>
        if lock s then Raises (set_lock false s) e else Raises s RuntimeError
    | Blocks s => Blocks s
    end.

(** Lines 60-75: register the connection and count it. *)
Definition create_connection (self : t) (conn_id : string) (env : call_env)
  : outcome t (option string) :=
  let self :=
    set_connections (<[conn_id := new_connection conn_id env]> (connections self)) self in
  let m := metrics self in
  let self :=
    set_metrics {| total_requests := total_requests m + 1;
                   active_connections := len self;
                   queued_connections := queued_connections m;
                   rejected_connections := rejected_connections m;
                   avg_response_time := avg_response_time m;
                   total_response_time := total_response_time m |} self in
  Returns self (Some conn_id).

(** Lines 46-75.  [None] is Python's [None]. *)
Definition start_connection (self : t) (timeout : pyarg) (env : call_env)
  : outcome t (option string) :=
  let conn_id := uuid_conn env in
  with_lock self (fun self =>
    if max_concurrent self <=? len self then
      match Queue.put (connection_queue self) conn_id timeout with
      | inr q =>
          let self := set_queue q self in
          let m := metrics self in
          let self :=
            set_metrics {| total_requests := total_requests m;
                           active_connections := active_connections m;
                           queued_connections := queued_connections m + 1;
                           rejected_connections := rejected_connections m;
                           avg_response_time := avg_response_time m;
                           total_response_time := total_response_time m |} self in
          create_connection self conn_id env
      | inl Full =>
          let m := metrics self in
          let self :=
            set_metrics {| total_requests := total_requests m;
                           active_connections := active_connections m;
                           queued_connections := queued_connections m;
                           rejected_connections := rejected_connections m + 1;
                           avg_response_time := avg_response_time m;
                           total_response_time := total_response_time m |} self in
          Returns self None
      | inl e => Raises self e
      end
    else create_connection self conn_id env).

(** Lines 89-95: the [try] block with its [except queue.Empty: pass].
    [nested] is what the inner [start_connection] would draw. *)
Definition process_queued (self : t) (nested : call_env) : outcome t unit :=
  match Queue.get_nowait (connection_queue self) with
  | inr (queued_conn_id, q) =>
      let self := set_queue q self in
      let m := metrics self in
      let self :=
        set_metrics {| total_requests := total_requests m;
                       active_connections := active_connections m;
                       queued_connections := queued_connections m - 1;
                       rejected_connections := rejected_connections m;
                       avg_response_time := avg_response_time m;
                       total_response_time := total_response_time m |} self in
      match start_connection self (PyStr queued_conn_id) nested with
      | Returns s _ => Returns s tt
      | Raises s Empty => Returns s tt
      | Raises s e => Raises s e
      | Blocks s => Blocks s
      end
  | inl Empty => Returns self tt
  | inl e => Raises self e
  end.

(** Lines 77-97. *)
Definition end_connection (self : t) (conn_id : string) (now : float)
    (nested : call_env) : outcome t unit :=
  with_lock self (fun self =>
    match connections self !! conn_id with
    | None => Returns self tt
    | Some conn =>
        let duration := PrimFloat.sub now (Connection.start_time conn) in
        let m := metrics self in
        let total := PrimFloat.add (total_response_time m) duration in
        let self :=
          set_metrics {| total_requests := total_requests m;
                         active_connections := active_connections m;
                         queued_connections := queued_connections m;
                         rejected_connections := rejected_connections m;
                         avg_response_time := avg_response_time m;
                         total_response_time := total |} self in
        match py_truediv total (total_requests m) with
        | inl e => Raises self e
        | inr avg =>
            let m := metrics self in
            let self :=
              set_metrics {| total_requests := total_requests m;
                             active_connections := active_connections m;
                             queued_connections := queued_connections m;
                             rejected_connections := rejected_connections m;
                             avg_response_time := avg;
                             total_response_time := total_response_time m |} self in
            let self := set_connections (delete conn_id (connections self)) self in
            match process_queued self nested with
            | Returns self _ =>
                let m := metrics self in
                let self :=
                  set_metrics {| total_requests := total_requests m;
                                 active_connections := len self;
                                 queued_connections := queued_connections m;
                                 rejected_connections := rejected_connections m;
                                 avg_response_time := avg_response_time m;
                                 total_response_time := total_response_time m |} self in
                Returns self tt
            | other => other
            end
        end
    end).

(** Lines 99-101: no lock taken. *)
Definition get_connection (self : t) (conn_id : string) : option Connection.t :=
  connections self !! conn_id.

(** Lines 103-106. *)
Definition get_metrics (self : t) : outcome t Metrics.t :=
  with_lock self (fun self => Returns self (metrics self)).
End ConnectionManager.

(** ** Sequences of calls *)

Inductive call :=
  | StartConnection (timeout : pyarg) (env : call_env)
  | EndConnection (conn_id : string) (now : float) (nested : call_env)
  | GetMetrics.

(** The state one call leaves behind, however the call ends. *)
Definition step (s : ConnectionManager.t) (c : call) : ConnectionManager.t :=
  match c with
  | StartConnection timeout env =>
      state_of (ConnectionManager.start_connection s timeout env)
  | EndConnection conn_id now nested =>
      state_of (ConnectionManager.end_connection s conn_id now nested)
  | GetMetrics => state_of (ConnectionManager.get_metrics s)
  end.

Definition run (s : ConnectionManager.t) (cs : list call) : ConnectionManager.t :=
  foldl step s cs.

(** ** Sample inputs *)

Definition sample_request : request :=
  {| remote_addr := Some "10.0.0.1";
     path := "/proxy/orders";
     method := "GET";
     headers := [("User-Agent", "curl/8.5"); ("x-request-id", "rq-1")] |}.

(** A call that draws the connection id [tok] and reads the clock at [t]. *)
Definition env_at (tok : string) (t : float) : call_env :=
  {| uuid_conn := tok; req := sample_request; now := t; uuid_req := "rq-0" |}.

Import ConnectionManager.

(** One slot, two arrivals at times 100 and 101; the second passes
    [timeout = 0]. *)
Definition first_arrival : call := StartConnection (PyInt 30) (env_at "a" 100).
Definition second_arrival : call := StartConnection (PyInt 0) (env_at "b" 101).

Definition one_registered : ConnectionManager.t := run (__init__ 1) [first_arrival].
Definition two_arrived : ConnectionManager.t :=
  run (__init__ 1) [first_arrival; second_arrival].

(** The state in which line 93 calls [start_connection] when ["a"] is
    released at time 103 in [two_arrived]: ["a"] removed and accounted for,
    ["b"] taken from the queue, the lock still held. *)
Definition at_promotion : ConnectionManager.t :=
  {| max_concurrent := 1;
     connections := delete "a" (connections two_arrived);
     lock := true;
     connection_queue :=
       {| Queue.maxsize := 0; Queue.items := [];
          Queue.put_log := ["b"]; Queue.get_log := ["b"] |};
     metrics :=
       {| Metrics.total_requests := 2;
          Metrics.active_connections := 2;
          Metrics.queued_connections := 0;
          Metrics.rejected_connections := 0;
          Metrics.avg_response_time := 1.5;
          Metrics.total_response_time := 3 |} |}.


(** The manager after ["a"] has been released at time 103 in [two_arrived]. *)
Definition after_deadlock : ConnectionManager.t :=
  run (__init__ 1)
    [first_arrival; second_arrival; EndConnection "a" 103 (env_at "c" 103)].




(** One admission, its release after 2 time units, a second admission. *)
Definition stale_avg_calls : list call :=
  [ StartConnection (PyInt 30) (env_at "a" 0);
    EndConnection "a" 2 (env_at "n" 2);
    StartConnection (PyInt 30) (env_at "b" 5) ].

(** ** Predicates on states *)

(** What every sequence of calls preserves. *)
Record inv (s : ConnectionManager.t) : Prop := {
  inv_maxsize : Queue.maxsize (connection_queue s) = 0;
  inv_rejected : Metrics.rejected_connections (metrics s) = 0;
  inv_logs :
    Queue.put_log (connection_queue s) =
    Queue.get_log (connection_queue s) ++ Queue.items (connection_queue s);
  inv_total : len s <= Metrics.total_requests (metrics s);
  inv_avg :
    Metrics.total_requests (metrics s) = 0 ->
    Metrics.avg_response_time (metrics s) = 0%float
}.

(** Nobody holds the lock and nobody is queued. *)
Definition settled (s : ConnectionManager.t) : Prop :=
  lock s = false /\
  Queue.maxsize (connection_queue s) = 0 /\
  Queue.items (connection_queue s) = [].

(** The average as a quantity derived from the two running totals. *)
Definition derived_avg (m : Metrics.t) : float :=
  if Metrics.total_requests m =? 0 then 0%float
  else PrimFloat.div (Metrics.total_response_time m)
                     (float_of_int (Metrics.total_requests m)).

(** What the counters and the queue's history say about each other. *)
Record consistent (s : ConnectionManager.t) : Prop := {
  con_active :
    lock s = false -> Metrics.active_connections (metrics s) = len s;
  con_queued :
    Metrics.queued_connections (metrics s)
      = Z.of_nat (length (Queue.items (connection_queue s)));
  con_unpromoted :
    lock s = false -> Queue.get_log (connection_queue s) = [];
  con_registered :
    lock s = false ->
    forall x, x ∈ Queue.items (connection_queue s) -> is_Some (connections s !! x);
  con_got : (length (Queue.get_log (connection_queue s)) <= 1)%nat
}.

(** ** The routing layer (lines 183-199 and 228-238) *)

(** [flask.g], as far as the wrapper fills it. *)
Record g_ctx := { g_conn_id : string; g_request_id : string }.

(** What can come out of a wrapped call as an exception. *)
Inductive raised :=
  | ManagerError (e : exn)         (* raised inside the manager *)
  | AttributeError                 (* [None.request_id], line 195 *)
  | HandlerError (msg : string).   (* raised by the wrapped function *)

Inductive response (A : Type) :=
  | Busy (queued : Z)              (* the 503 answer of lines 188-191 *)
  | Handled (a : A).
Arguments Busy {A} queued.
Arguments Handled {A} a.

Inductive completion (A : Type) :=
  | Done (s : ConnectionManager.t) (r : A)
  | Failed (s : ConnectionManager.t) (e : raised)
  | Stuck (s : ConnectionManager.t).
Arguments Done {A} s r.
Arguments Failed {A} s e.
Arguments Stuck {A} s.

(** [if not conn_id]: [None] and the empty string are false. *)
Definition truthy (o : option string) : option string :=
  match o with
  | Some (String c r) => Some (String c r)
  | _ => None
  end.

(** [require_connection(f)] called once (lines 185-198).  [f] gets [g] and
    returns or raises.  Other threads' calls can fall between the admission
    and the reading of the record ([before]) and while [f] runs ([during]).
    The [finally] clause runs on every way out of the [try]; what it raises
    replaces what the [try] raised. *)
Definition require_connection {A} (f : g_ctx -> string + A)
    (s : ConnectionManager.t) (env : call_env) (before during : list call)
    (t_end : float) (nested : call_env) : completion (response A) :=
  match start_connection s (PyInt 30) env with
  | Blocks s1 => Stuck s1
  | Raises s1 e => Failed s1 (ManagerError e)
  | Returns s1 r =>
      let s2 := run s1 before in
      match truthy r with
      | None => Done s2 (Busy (Metrics.queued_connections (metrics s2)))
      | Some conn_id =>
          let tried : raised + A :=
            match get_connection s2 conn_id with
            | None => inl AttributeError
            | Some c =>
                match f {| g_conn_id := conn_id;
                           g_request_id := Connection.request_id c |} with
                | inl msg => inl (HandlerError msg)
                | inr a => inr a
                end
            end in
          match end_connection (run s2 during) conn_id t_end nested with
          | Blocks s4 => Stuck s4
          | Raises s4 e => Failed s4 (ManagerError e)
          | Returns s4 _ =>
              match tried with
              | inl e => Failed s4 e
              | inr a => Done s4 (Handled a)
              end
          end
      end
  end.

(** The JSON object [proxy_request] answers with (lines 232-238). *)
Module Proxied.
Record t := {
  status : string;
  path : string;
  method : string;
  request_id : string;
  connection_id : string
}.
End Proxied.

(** [proxy_request(path)] under the request [rq]; it never raises. *)
Definition proxy_request (rq : request) (path : string) (g : g_ctx)
  : string + Proxied.t :=
  inr {| Proxied.status := "proxied";
         Proxied.path := path;
         Proxied.method := method rq;
         Proxied.request_id := g_request_id g;
         Proxied.connection_id := g_conn_id g |}.

(** * Properties *)

(** Case analysis along the branches of the two methods. *)
Ltac start_cases s timeout env :=
  unfold start_connection, with_lock, create_connection;
  destruct (lock s) eqn:?; cbn [state_of set_lock max_concurrent connection_queue];
  [|change (len (set_lock true s)) with (len s);
    destruct (max_concurrent s <=? len s) eqn:?;
    [destruct (Queue.put (connection_queue s) (uuid_conn env) timeout) as [[]|?] eqn:?|]];
  cbn.

Ltac end_cases s conn_id t :=
  unfold end_connection, with_lock;
  destruct (lock s) eqn:?; cbn [state_of set_lock connections metrics];
  [|destruct (connections s !! conn_id) as [?c|] eqn:?; cbn [set_lock metrics lock];
    [destruct (py_truediv
                 (PrimFloat.add (Metrics.total_response_time (metrics s))
                                (PrimFloat.sub t (Connection.start_time c)))
                 (Metrics.total_requests (metrics s))) as [?e|?avg] eqn:?;
     [|unfold process_queued, Queue.get_nowait;
       cbn [set_metrics set_connections connection_queue];
       let Hi := fresh "Hitems" in
       destruct (Queue.items (connection_queue s)) as [|?w ?rest] eqn:Hi;
       cbn; rewrite Hi]|]];
  cbn.

(** ** The lock *)

Lemma unlock_lock (s : ConnectionManager.t) :
  lock s = false -> set_lock false (set_lock true s) = s.
Proof. destruct s; simpl; intros ->; reflexivity. Qed.

Lemma with_lock_held {A} (s : ConnectionManager.t)
    (body : ConnectionManager.t -> outcome ConnectionManager.t A) :
  lock s = true -> with_lock s body = Blocks s.
Proof. unfold with_lock; intros ->; reflexivity. Qed.

(** A second entry by the thread that holds the lock never gets in. *)
Lemma start_connection_locked s timeout env :
  lock s = true -> start_connection s timeout env = Blocks s.
Proof. apply with_lock_held. Qed.

Lemma end_connection_locked s conn_id t nested :
  lock s = true -> end_connection s conn_id t nested = Blocks s.
Proof. apply with_lock_held. Qed.

Lemma get_metrics_locked s :
  lock s = true -> get_metrics s = Blocks s.
Proof. apply with_lock_held. Qed.

Lemma step_locked s c : lock s = true -> step s c = s.
Proof.
  intros H; destruct c; simpl.
  - now rewrite start_connection_locked.
  - now rewrite end_connection_locked.
  - now rewrite get_metrics_locked.
Qed.

(** ** The queue *)

Lemma put_unbounded q item timeout :
  Queue.maxsize q = 0 -> Queue.put q item timeout = inr (Queue._put q item).
Proof. unfold Queue.put; intros ->; reflexivity. Qed.

(** ** [start_connection] on a free lock *)

Lemma start_connection_free s timeout env :
  lock s = false ->
  Queue.maxsize (connection_queue s) = 0 ->
  exists s',
    start_connection s timeout env = Returns s' (Some (uuid_conn env)) /\
    lock s' = false /\
    max_concurrent s' = max_concurrent s /\
    connections s' =
      <[uuid_conn env := new_connection (uuid_conn env) env]> (connections s) /\
    Metrics.total_requests (metrics s') = Metrics.total_requests (metrics s) + 1 /\
    Metrics.active_connections (metrics s') = len s' /\
    Metrics.rejected_connections (metrics s') = Metrics.rejected_connections (metrics s) /\
    Metrics.avg_response_time (metrics s') = Metrics.avg_response_time (metrics s) /\
    Metrics.total_response_time (metrics s') = Metrics.total_response_time (metrics s) /\
    (if max_concurrent s <=? len s
     then connection_queue s' = Queue._put (connection_queue s) (uuid_conn env) /\
          Metrics.queued_connections (metrics s') =
            Metrics.queued_connections (metrics s) + 1
     else connection_queue s' = connection_queue s /\
          Metrics.queued_connections (metrics s') = Metrics.queued_connections (metrics s)).
Proof.
  intros Hl Hq. unfold start_connection, with_lock. rewrite Hl.
  cbn [set_lock max_concurrent connection_queue].
  change (len (set_lock true s)) with (len s).
  destruct (max_concurrent s <=? len s) eqn:Hfull.
  - rewrite put_unbounded by exact Hq. cbn.
    eexists; split; [reflexivity|]. cbn. now repeat split.
  - cbn. eexists; split; [reflexivity|]. cbn. now repeat split.
Qed.

(** ** Division by the request counter *)

Lemma py_truediv_in_range x n :
  0 < n < float_int_limit ->
  py_truediv x n = inr (PrimFloat.div x (float_of_int n)).
Proof.
  intros [Hpos Hlim]. unfold py_truediv.
  rewrite Z.abs_eq by lia.
  destruct (Z.leb_spec float_int_limit n); [lia|].
  destruct (Z.eqb_spec n 0); [lia|]. reflexivity.
Qed.

(** The limit is the first int that does not convert. *)
Lemma float_int_limit_is_sharp :
  PrimFloat.is_infinity (float_of_int float_int_limit) = true /\
  PrimFloat.is_infinity (float_of_int (float_int_limit - 1)) = false.
Proof. split; vm_compute; reflexivity. Qed.

Lemma lookup_Some_size {A} (m : gmap string A) k v :
  m !! k = Some v -> (0 < size m)%nat.
Proof.
  intros H. destruct (size m) eqn:E; [|lia].
  apply map_size_empty_iff in E. subst m. now rewrite lookup_empty in H.
Qed.

(** ** [end_connection] on a free lock *)

Lemma end_connection_absent s conn_id t nested :
  lock s = false ->
  connections s !! conn_id = None ->
  end_connection s conn_id t nested = Returns s tt.
Proof.
  intros Hl Hc. unfold end_connection, with_lock. rewrite Hl.
  cbn [set_lock connections]. rewrite Hc. cbn [lock set_lock].
  now rewrite unlock_lock.
Qed.

Lemma end_connection_raises s conn_id t nested c e :
  lock s = false ->
  connections s !! conn_id = Some c ->
  py_truediv
    (PrimFloat.add (Metrics.total_response_time (metrics s))
                   (PrimFloat.sub t (Connection.start_time c)))
    (Metrics.total_requests (metrics s)) = inl e ->
  exists s',
    end_connection s conn_id t nested = Raises s' e /\
    lock s' = false /\
    connections s' = connections s /\
    connection_queue s' = connection_queue s /\
    max_concurrent s' = max_concurrent s /\
    Metrics.total_requests (metrics s') = Metrics.total_requests (metrics s) /\
    Metrics.rejected_connections (metrics s') = Metrics.rejected_connections (metrics s) /\
    Metrics.avg_response_time (metrics s') = Metrics.avg_response_time (metrics s).
Proof.
  intros Hl Hc Hd. unfold end_connection, with_lock. rewrite Hl.
  cbn [set_lock connections metrics]. rewrite Hc. cbn [set_lock metrics].
  rewrite Hd. cbn. eexists; split; [reflexivity|]. cbn. now repeat split.
Qed.

Lemma end_connection_present s conn_id t nested c avg :
  lock s = false ->
  connections s !! conn_id = Some c ->
  py_truediv
    (PrimFloat.add (Metrics.total_response_time (metrics s))
                   (PrimFloat.sub t (Connection.start_time c)))
    (Metrics.total_requests (metrics s)) = inr avg ->
  let o := end_connection s conn_id t nested in
  let s' := state_of o in
  connections s' = delete conn_id (connections s) /\
  max_concurrent s' = max_concurrent s /\
  Metrics.total_requests (metrics s') = Metrics.total_requests (metrics s) /\
  Metrics.rejected_connections (metrics s') = Metrics.rejected_connections (metrics s) /\
  Metrics.total_response_time (metrics s') =
    PrimFloat.add (Metrics.total_response_time (metrics s))
                  (PrimFloat.sub t (Connection.start_time c)) /\
  Metrics.avg_response_time (metrics s') = avg /\
  Queue.maxsize (connection_queue s') = Queue.maxsize (connection_queue s) /\
  Queue.put_log (connection_queue s') = Queue.put_log (connection_queue s) /\
  match Queue.items (connection_queue s) with
  | [] =>
      o = Returns s' tt /\
      lock s' = false /\
      connection_queue s' = connection_queue s /\
      Metrics.queued_connections (metrics s') = Metrics.queued_connections (metrics s) /\
      Metrics.active_connections (metrics s') = len s'
  | w :: rest =>
      o = Blocks s' /\
      lock s' = true /\
      Queue.items (connection_queue s') = rest /\
      Queue.get_log (connection_queue s') = Queue.get_log (connection_queue s) ++ [w] /\
      Metrics.queued_connections (metrics s') =
        Metrics.queued_connections (metrics s) - 1 /\
      Metrics.active_connections (metrics s') = Metrics.active_connections (metrics s)
  end.
Proof.
  intros Hl Hc Hd o s'. subst s' o. unfold end_connection, with_lock. rewrite Hl.
  cbn [set_lock connections metrics]. rewrite Hc. cbn [set_lock metrics].
  rewrite Hd. unfold process_queued, Queue.get_nowait.
  cbn [set_metrics set_connections connection_queue].
  destruct (Queue.items (connection_queue s)) as [|w rest] eqn:Hi;
    cbn; rewrite Hi.
  - cbn. now repeat split.
  - cbn. now repeat split.
Qed.

Lemma get_metrics_free s :
  lock s = false -> get_metrics s = Returns s (metrics s).
Proof.
  intros Hl. unfold get_metrics, with_lock. rewrite Hl. cbn.
  now rewrite unlock_lock.
Qed.

(** ** The invariant *)

Lemma inv_init capacity : inv (__init__ capacity).
Proof. split; cbn; reflexivity. Qed.

Lemma len_insert_le s k v :
  Z.of_nat (size (<[k := v]> (connections s))) <= len s + 1.
Proof.
  unfold len. rewrite map_size_insert.
  destruct (connections s !! k); cbn; lia.
Qed.

Lemma len_delete_le s k :
  Z.of_nat (size (delete k (connections s))) <= len s.
Proof.
  unfold len. rewrite map_size_delete.
  destruct (connections s !! k); cbn; lia.
Qed.

Lemma len_nonneg s : 0 <= len s.
Proof. unfold len; lia. Qed.

Lemma inv_start_connection s timeout env :
  inv s -> inv (state_of (start_connection s timeout env)).
Proof.
  intros I. destruct (lock s) eqn:Hl.
  { now rewrite start_connection_locked. }
  destruct (start_connection_free s timeout env Hl (inv_maxsize s I))
    as (s' & -> & _ & _ & Hc & Ht & _ & Hr & Ha & _ & Hq).
  pose proof (len_nonneg s) as Hn. pose proof (inv_total s I) as Htot.
  cbn [state_of].
  assert (Hlen : len s' <= len s + 1).
  { unfold len at 1. rewrite Hc. apply len_insert_le. }
  destruct (max_concurrent s <=? len s); destruct Hq as [Hq _]; split;
    rewrite ?Hq, ?Hr, ?Ht, ?Ha;
    cbn [Queue._put Queue.maxsize Queue.put_log Queue.get_log Queue.items];
    try (apply I); try lia.
  rewrite (inv_logs s I). now rewrite app_assoc.
Qed.

Lemma inv_end_connection s conn_id t nested :
  inv s -> inv (state_of (end_connection s conn_id t nested)).
Proof.
  intros I. destruct (lock s) eqn:Hl.
  { now rewrite end_connection_locked. }
  destruct (connections s !! conn_id) as [c|] eqn:Hc.
  2:{ now rewrite end_connection_absent. }
  pose proof (lookup_Some_size _ _ _ Hc) as Hsz.
  pose proof (inv_total s I) as Htot. unfold len in Htot.
  destruct (py_truediv
              (PrimFloat.add (Metrics.total_response_time (metrics s))
                             (PrimFloat.sub t (Connection.start_time c)))
              (Metrics.total_requests (metrics s))) as [e|avg] eqn:Hd.
  - destruct (end_connection_raises s conn_id t nested c e Hl Hc Hd)
      as (s' & -> & _ & Hcs & Hq & _ & Ht & Hr & Ha).
    cbn [state_of]. split; unfold len; rewrite ?Hq, ?Hr, ?Ht, ?Ha, ?Hcs; apply I.
  - pose proof (end_connection_present s conn_id t nested c avg Hl Hc Hd) as H.
    cbn zeta in H.
    set (s' := state_of (end_connection s conn_id t nested)) in *.
    destruct H as (Hcs & _ & Ht & Hr & _ & _ & Hm & Hp & Hcase).
    pose proof (len_delete_le s conn_id) as Hdel. unfold len in Hdel.
    assert (Hlen : len s' <= Metrics.total_requests (metrics s')).
    { unfold len. rewrite Hcs, Ht. lia. }
    split; rewrite ?Hm, ?Hr, ?Ht; try apply I; try exact Hlen; try lia.
    rewrite Hp, (inv_logs s I).
    destruct (Queue.items (connection_queue s)) as [|w rest] eqn:Hi.
    + destruct Hcase as (_ & _ & -> & _). now rewrite Hi.
    + destruct Hcase as (_ & _ & -> & -> & _). now rewrite <- app_assoc.
Qed.

Lemma inv_step s c : inv s -> inv (step s c).
Proof.
  intros I. destruct c; cbn [step].
  - now apply inv_start_connection.
  - now apply inv_end_connection.
  - destruct (lock s) eqn:Hl.
    + now rewrite get_metrics_locked.
    + now rewrite get_metrics_free.
Qed.

Lemma inv_run s cs : inv s -> inv (run s cs).
Proof.
  revert s. induction cs as [|c cs IH]; intros s I; [exact I|].
  apply IH, inv_step, I.
Qed.

(** Every state the manager can be in after its construction. *)
Lemma inv_reachable capacity cs : inv (run (__init__ capacity) cs).
Proof. apply inv_run, inv_init. Qed.

(** ** The capacity bound *)

(** C1. With [max_concurrent = 1], two calls of [start_connection] leave two
    connections in the registry and [active_connections = 2]: the bound
    [active_connections <= max_concurrent] is broken. *)
Theorem C1_registry_exceeds_max_concurrent :
  max_concurrent two_arrived = 1 /\
  len two_arrived = 2 /\
  Metrics.active_connections (metrics two_arrived) = 2 /\
  ~ (len two_arrived <= max_concurrent two_arrived) /\
  ~ (Metrics.active_connections (metrics two_arrived) <= max_concurrent two_arrived).
Proof.
  assert (Hm : max_concurrent two_arrived = 1) by reflexivity.
  assert (Hl : len two_arrived = 2) by (vm_compute; reflexivity).
  assert (Ha : Metrics.active_connections (metrics two_arrived) = 2)
    by (vm_compute; reflexivity).
  rewrite Hm, Hl, Ha. repeat split; lia.
Qed.

(** C4. With the registry full and [timeout = 0], [start_connection] does
    not reject: it returns the new id, [rejected_connections] stays 0,
    [queued_connections] becomes 1, and the connection is registered. *)
Theorem C4_zero_timeout_is_not_rejected :
  len one_registered = max_concurrent one_registered /\
  lock one_registered = false /\
  start_connection one_registered (PyInt 0) (env_at "b" 101)
    = Returns two_arrived (Some "b") /\
  Metrics.rejected_connections (metrics one_registered) = 0 /\
  Metrics.rejected_connections (metrics two_arrived) = 0 /\
  Metrics.queued_connections (metrics one_registered) = 0 /\
  Metrics.queued_connections (metrics two_arrived) = 1 /\
  connections one_registered !! "b" = None /\
  connections two_arrived !! "b" = Some (new_connection "b" (env_at "b" 101)).
Proof. repeat split; vm_compute; reflexivity. Qed.

(** C5. After the second arrival the id ["b"] is in the registry and in the
    wait queue at once. *)
Theorem C5_token_in_registry_and_queue :
  connections two_arrived !! "b" = Some (new_connection "b" (env_at "b" 101)) /\
  Queue.items (connection_queue two_arrived) = ["b"].
Proof. split; vm_compute; reflexivity. Qed.

(** ** Release with a waiter *)

(** C2. Releasing ["a"] while ["b"] waits does not hand the slot over: the
    release takes ["b"] from the queue and ends as the call of
    [start_connection] with the id ["b"] in the place of [timeout] ends,
    which is made with the lock held and never returns; ["a"] is gone and
    [active_connections] is not brought up to date. *)
Theorem C2_promotion_reenters_start_connection :
  Queue.get_nowait (connection_queue two_arrived)
    = inr ("b", connection_queue at_promotion) /\
  start_connection at_promotion (PyStr "b") (env_at "c" 103) = Blocks at_promotion /\
  end_connection two_arrived "a" 103 (env_at "c" 103)
    = Blocks (state_of (start_connection at_promotion (PyStr "b") (env_at "c" 103))) /\
  connections at_promotion !! "a" = None /\
  Metrics.active_connections (metrics at_promotion) = 2.
Proof. repeat split; vm_compute; reflexivity. Qed.

(** C3. Releasing a registered id while the queue is not empty never
    returns: the thread waits for the lock it holds, and the lock stays
    held. *)
Theorem C3_release_blocks_with_waiter :
  lock two_arrived = false /\
  connections two_arrived !! "a" = Some (new_connection "a" (env_at "a" 100)) /\
  Queue.items (connection_queue two_arrived) = ["b"] /\
  end_connection two_arrived "a" 103 (env_at "c" 103) = Blocks at_promotion /\
  lock at_promotion = true /\
  (forall c, step at_promotion c = at_promotion).
Proof.
  repeat split; try (vm_compute; reflexivity).
  intros c. now apply step_locked.
Qed.

(** C7. No entry leaves the queue when its timeout has passed.  The entry
    ["b"], queued with [timeout = 0] at time 101, was answered with an id
    and not a rejection, is still queued after any number of metric reads,
    and is the entry the release of the unrelated ["a"] takes for
    promotion. *)
Theorem C7_expired_waiter_is_dequeued_by_release :
  start_connection one_registered (PyInt 0) (env_at "b" 101)
    = Returns two_arrived (Some "b") /\
  (forall n, Queue.items (connection_queue (run two_arrived (repeat GetMetrics n))) = ["b"]) /\
  Queue.get_log (connection_queue two_arrived) = [] /\
  Queue.get_log
    (connection_queue (state_of (end_connection two_arrived "a" 103 (env_at "c" 103))))
    = ["b"] /\
  Metrics.queued_connections
    (metrics (state_of (end_connection two_arrived "a" 103 (env_at "c" 103)))) = 0.
Proof.
  repeat split; try (vm_compute; reflexivity).
  intros n. induction n as [|n IH]; [vm_compute; reflexivity|].
  cbn [repeat run foldl step]. rewrite get_metrics_free by reflexivity.
  exact IH.
Qed.

(** ** The rejection branch *)

(** C10, as stated, fails: after the release that deadlocks,
    [start_connection] does not return a token; it does not return. *)
Lemma C10_start_connection_blocks_after_deadlock :
  lock after_deadlock = true /\
  start_connection after_deadlock (PyInt 30) (env_at "d" 104) = Blocks after_deadlock /\
  (forall s' r,
     start_connection after_deadlock (PyInt 30) (env_at "d" 104) <> Returns s' r).
Proof.
  assert (H : start_connection after_deadlock (PyInt 30) (env_at "d" 104)
              = Blocks after_deadlock) by (vm_compute; reflexivity).
  split; [reflexivity|]. split; [exact H|]. intros s' r. rewrite H. discriminate.
Qed.

(** C10, amended.  After any sequence of calls the queue has no capacity bound, so
    [put] stores the item whatever the timeout and never raises [Full];
    [rejected_connections] is 0; and [start_connection] never returns
    [None] and never raises: it returns the id it drew, unless the lock is
    held for ever, in which case it does not return at all. *)
Theorem C10_rejection_branch_unreachable
    (capacity : Z) (cs : list call) (timeout : pyarg) (env : call_env) :
  let s := run (__init__ capacity) cs in
  Queue.maxsize (connection_queue s) = 0 /\
  Queue.put (connection_queue s) (uuid_conn env) timeout
    = inr (Queue._put (connection_queue s) (uuid_conn env)) /\
  Queue.put (connection_queue s) (uuid_conn env) timeout <> inl Full /\
  Metrics.rejected_connections (metrics s) = 0 /\
  start_connection s timeout env
    = (if lock s then Blocks s
       else Returns (state_of (start_connection s timeout env)) (Some (uuid_conn env))) /\
  (forall s', start_connection s timeout env <> Returns s' None) /\
  (forall s' e, start_connection s timeout env <> Raises s' e).
Proof.
  intros s. pose proof (inv_reachable capacity cs) as I. fold s in I.
  pose proof (put_unbounded (connection_queue s) (uuid_conn env) timeout
                (inv_maxsize s I)) as Hput.
  assert (Hstart : start_connection s timeout env
    = (if lock s then Blocks s
       else Returns (state_of (start_connection s timeout env)) (Some (uuid_conn env)))).
  { destruct (lock s) eqn:Hl.
    - now apply start_connection_locked.
    - destruct (start_connection_free s timeout env Hl (inv_maxsize s I))
        as (s' & -> & _). reflexivity. }
  split; [apply I|]. split; [exact Hput|]. split; [now rewrite Hput|].
  split; [apply I|]. split; [exact Hstart|].
  split; intros; rewrite Hstart; destruct (lock s); discriminate.
Qed.

(** ** Order of promotion *)






(** ** Release of a registered and of an unregistered id *)

Lemma registered_is_counted s conn_id c :
  inv s -> connections s !! conn_id = Some c ->
  0 < Metrics.total_requests (metrics s).
Proof.
  intros I Hc. pose proof (lookup_Some_size _ _ _ Hc).
  pose proof (inv_total s I) as Ht. unfold len in Ht. lia.
Qed.

Lemma end_connection_noop s conn_id t nested :
  connections s !! conn_id = None ->
  end_connection s conn_id t nested = (if lock s then Blocks s else Returns s tt).
Proof.
  intros Hc. destruct (lock s) eqn:Hl.
  - now apply end_connection_locked.
  - now apply end_connection_absent.
Qed.

(** C6. Release is not idempotent once an id is queued.  With ["a"] and
    ["b"] registered and ["b"] queued, the first release of ["a"] removes it
    but never returns, and leaves [active_connections] at 2 with one
    connection registered.  After that the first release of the registered
    ["b"] removes nothing and changes no metric, and no release returns,
    whether its id is registered or not. *)
Theorem C6_first_release_does_not_always_remove :
  end_connection two_arrived "a" 103 (env_at "c" 103) = Blocks after_deadlock /\
  get_connection after_deadlock "a" = None /\
  Metrics.active_connections (metrics after_deadlock) = 2 /\
  len after_deadlock = 1 /\
  get_connection after_deadlock "b" = Some (new_connection "b" (env_at "b" 101)) /\
  end_connection after_deadlock "b" 104 (env_at "d" 104) = Blocks after_deadlock /\
  get_connection (state_of (end_connection after_deadlock "b" 104 (env_at "d" 104))) "b"
    = Some (new_connection "b" (env_at "b" 101)) /\
  end_connection after_deadlock "a" 104 (env_at "d" 104) = Blocks after_deadlock.
Proof. repeat split; vm_compute; reflexivity. Qed.

(** X14. Where the lock is free, release is idempotent.  In every state,
    releasing an id that is not registered changes nothing and raises
    nothing: the call returns with the state it found if the lock is free,
    and waits with that state if it is held.  On a manager reached from its
    construction with the lock free (request counter within the float
    range), releasing a registered id removes its connection, adds the
    duration to [total_response_time] and recomputes [avg_response_time];
    with nobody queued it returns and [active_connections] is the
    registry's size; and releasing the same id again changes nothing. *)
Theorem X14_release_with_free_lock_is_idempotent :
  (forall s conn_id t nested,
     connections s !! conn_id = None ->
     end_connection s conn_id t nested = (if lock s then Blocks s else Returns s tt) /\
     state_of (end_connection s conn_id t nested) = s) /\
  (forall capacity cs conn_id t nested c,
     let s := run (__init__ capacity) cs in
     lock s = false ->
     connections s !! conn_id = Some c ->
     Metrics.total_requests (metrics s) < float_int_limit ->
     let s1 := state_of (end_connection s conn_id t nested) in
     connections s1 = delete conn_id (connections s) /\
     connections s1 !! conn_id = None /\
     Metrics.total_response_time (metrics s1)
       = PrimFloat.add (Metrics.total_response_time (metrics s))
                       (PrimFloat.sub t (Connection.start_time c)) /\
     Metrics.avg_response_time (metrics s1)
       = PrimFloat.div (Metrics.total_response_time (metrics s1))
                       (float_of_int (Metrics.total_requests (metrics s1))) /\
     (Queue.items (connection_queue s) = [] ->
        end_connection s conn_id t nested = Returns s1 tt /\
        lock s1 = false /\
        Metrics.active_connections (metrics s1) = len s1) /\
     (forall t' nested',
        end_connection s1 conn_id t' nested'
          = (if lock s1 then Blocks s1 else Returns s1 tt) /\
        state_of (end_connection s1 conn_id t' nested') = s1)).
Proof.
  assert (Hnoop : forall s conn_id t nested,
     connections s !! conn_id = None ->
     end_connection s conn_id t nested = (if lock s then Blocks s else Returns s tt) /\
     state_of (end_connection s conn_id t nested) = s).
  { intros s conn_id t nested Hc. rewrite end_connection_noop by exact Hc.
    split; [reflexivity|]. now destruct (lock s). }
  split; [exact Hnoop|].
  intros capacity cs conn_id t nested c s Hl Hc Hlim s1.
  pose proof (inv_reachable capacity cs) as I. fold s in I.
  pose proof (registered_is_counted s conn_id c I Hc) as Hpos.
  pose proof (end_connection_present s conn_id t nested c _ Hl Hc
                (py_truediv_in_range _ _ (conj Hpos Hlim))) as H.
  cbn zeta in H. fold s1 in H.
  destruct H as (Hcs & _ & Ht & _ & Htrt & Havg & _ & _ & Hcase).
  assert (Hgone : connections s1 !! conn_id = None)
    by (rewrite Hcs; apply lookup_delete_eq).
  split; [exact Hcs|]. split; [exact Hgone|]. split; [exact Htrt|].
  split; [now rewrite Havg, Htrt, Ht|].
  split; [|intros t' nested'; now apply Hnoop].
  intros Hi. rewrite Hi in Hcase. destruct Hcase as (Ho & Hl1 & _ & _ & Ha).
  now repeat split.
Qed.

(** X14 at [one_registered]: the first release of ["a"] returns and removes
    it, the second returns and changes nothing. *)
Lemma X14_release_with_free_lock_is_idempotent_witness :
  let s1 := state_of (end_connection one_registered "a" 103 (env_at "c" 103)) in
  end_connection one_registered "a" 103 (env_at "c" 103) = Returns s1 tt /\
  connections s1 = delete "a" (connections one_registered) /\
  end_connection s1 "a" 104 (env_at "d" 104) = Returns s1 tt.
Proof.
  intros s1.
  destruct X14_release_with_free_lock_is_idempotent as [_ H].
  destruct (H 1 [first_arrival] "a" 103%float (env_at "c" 103)
              (new_connection "a" (env_at "a" 100)))
    as (Hcs & _ & _ & _ & Hret & Hagain); try (vm_compute; reflexivity).
  destruct Hret as (Ho & Hl & _); [vm_compute; reflexivity|].
  destruct (Hagain 104%float (env_at "d" 104)) as [Ho2 _].
  fold s1 in Hl. fold s1 in Ho2. rewrite Hl in Ho2.
  split; [exact Ho|]. split; [exact Hcs | exact Ho2].
Defined.

(** ** The average response time *)

Lemma float_int_limit_above_two : 2 < float_int_limit.
Proof. vm_compute. reflexivity. Qed.

Lemma settled_init capacity : settled (__init__ capacity).
Proof. now repeat split. Qed.

Lemma step_start_settled s timeout env :
  settled s -> len s < max_concurrent s ->
  let s' := step s (StartConnection timeout env) in
  settled s' /\
  max_concurrent s' = max_concurrent s /\
  connections s' = <[uuid_conn env := new_connection (uuid_conn env) env]> (connections s) /\
  Metrics.total_requests (metrics s') = Metrics.total_requests (metrics s) + 1 /\
  Metrics.total_response_time (metrics s') = Metrics.total_response_time (metrics s) /\
  Metrics.avg_response_time (metrics s') = Metrics.avg_response_time (metrics s).
Proof.
  intros (Hl & Hm & Hi) Hroom s'. subst s'. cbn [step].
  destruct (start_connection_free s timeout env Hl Hm)
    as (s' & -> & Hl' & Hmax & Hc & Ht & _ & _ & Ha & Htrt & Hq).
  cbn [state_of].
  destruct (Z.leb_spec (max_concurrent s) (len s)) as [Hfull|_]; [lia|].
  destruct Hq as [Hq _]. unfold settled. rewrite Hq. now repeat split.
Qed.

Lemma step_end_settled s conn_id t nested c :
  settled s -> connections s !! conn_id = Some c ->
  0 < Metrics.total_requests (metrics s) < float_int_limit ->
  let s' := step s (EndConnection conn_id t nested) in
  settled s' /\
  max_concurrent s' = max_concurrent s /\
  connections s' = delete conn_id (connections s) /\
  Metrics.total_requests (metrics s') = Metrics.total_requests (metrics s) /\
  Metrics.total_response_time (metrics s')
    = PrimFloat.add (Metrics.total_response_time (metrics s))
                    (PrimFloat.sub t (Connection.start_time c)) /\
  Metrics.avg_response_time (metrics s')
    = PrimFloat.div (Metrics.total_response_time (metrics s'))
                    (float_of_int (Metrics.total_requests (metrics s'))).
Proof.
  intros (Hl & Hm & Hi) Hc Hrange s'. subst s'. cbn [step].
  pose proof (end_connection_present s conn_id t nested c _ Hl Hc
                (py_truediv_in_range _ _ Hrange)) as H.
  cbn zeta in H. rewrite Hi in H.
  destruct H as (Hcs & Hmax & Ht & _ & Htrt & Havg & _ & _ & _ & Hl' & Hq & _).
  unfold settled. rewrite Hq, Havg, Htrt, Ht. now repeat split.
Qed.

Lemma len_of_connections s (m : gmap string Connection.t) :
  connections s = m -> len s = Z.of_nat (size m).
Proof. unfold len. now intros ->. Qed.

(** Two connections, both admitted at once and both released, in any of the
    three orders in which the first to arrive can be served. *)
Lemma two_completed capacity ex ey tx ty timeout_x timeout_y nx ny cs :
  2 <= capacity ->
  uuid_conn ex <> uuid_conn ey ->
  let start_x := StartConnection timeout_x ex in
  let start_y := StartConnection timeout_y ey in
  let end_x := EndConnection (uuid_conn ex) tx nx in
  let end_y := EndConnection (uuid_conn ey) ty ny in
  let dx := PrimFloat.sub tx (now ex) in
  let dy := PrimFloat.sub ty (now ey) in
  cs = [start_x; end_x; start_y; end_y] \/
  cs = [start_x; start_y; end_x; end_y] \/
  cs = [start_x; start_y; end_y; end_x] ->
  let s := run (__init__ capacity) cs in
  settled s /\
  connections s = ∅ /\
  Metrics.total_requests (metrics s) = 2 /\
  (Metrics.total_response_time (metrics s) = PrimFloat.add (PrimFloat.add 0 dx) dy \/
   Metrics.total_response_time (metrics s) = PrimFloat.add (PrimFloat.add 0 dy) dx) /\
  Metrics.avg_response_time (metrics s)
    = PrimFloat.div (Metrics.total_response_time (metrics s)) (float_of_int 2).
Proof.
  intros Hmc Hne start_x start_y end_x end_y dx dy Hcs s.
  subst start_x start_y end_x end_y dx dy.
  pose proof float_int_limit_above_two as Hlim.
  set (s0 := __init__ capacity) in *.
  pose proof (settled_init capacity) as S0. fold s0 in S0.
  assert (L0 : len s0 < max_concurrent s0) by (change (0 < capacity); lia).
  destruct (step_start_settled s0 timeout_x ex S0 L0) as (S1 & M1 & C1 & T1 & R1 & _).
  set (s1 := step s0 (StartConnection timeout_x ex)) in *.
  change (connections s0) with (∅ : gmap string Connection.t) in C1.
  change (Metrics.total_requests (metrics s0)) with 0 in T1.
  change (Metrics.total_response_time (metrics s0)) with 0%float in R1.
  change (max_concurrent s0) with capacity in M1.
  set (cx := new_connection (uuid_conn ex) ex) in *.
  set (cy := new_connection (uuid_conn ey) ey) in *.
  destruct Hcs as [Hcs | [Hcs | Hcs]]; subst s cs; cbn [run foldl]; fold s0; fold s1.
  - (* x is released before y arrives *)
    assert (L1 : connections s1 !! uuid_conn ex = Some cx)
      by (rewrite C1; apply lookup_insert_eq).
    destruct (step_end_settled s1 _ tx nx cx S1 L1 ltac:(lia)) as (S2 & M2 & C2 & T2 & R2 & _).
    set (s2 := step s1 (EndConnection (uuid_conn ex) tx nx)) in *.
    rewrite C1, delete_insert_id in C2 by apply lookup_empty.
    assert (L2 : len s2 < max_concurrent s2)
      by (rewrite (len_of_connections _ _ C2), map_size_empty; lia).
    destruct (step_start_settled s2 timeout_y ey S2 L2) as (S3 & M3 & C3 & T3 & R3 & _).
    set (s3 := step s2 (StartConnection timeout_y ey)) in *.
    assert (L3 : connections s3 !! uuid_conn ey = Some cy)
      by (rewrite C3; apply lookup_insert_eq).
    destruct (step_end_settled s3 _ ty ny cy S3 L3 ltac:(lia)) as (S4 & M4 & C4 & T4 & R4 & A4).
    set (s4 := step s3 (EndConnection (uuid_conn ey) ty ny)) in *.
    rewrite C3, C2, delete_insert_id in C4 by apply lookup_empty.
    assert (T : Metrics.total_requests (metrics s4) = 2) by lia.
    split; [exact S4|]. split; [exact C4|]. split; [exact T|].
    split; [left; now rewrite R4, R3, R2, R1 | now rewrite A4, T].
  - (* both arrive, x is released first *)
    assert (L1 : len s1 < max_concurrent s1).
    { rewrite (len_of_connections _ _ C1), M1.
      rewrite map_size_insert_None, map_size_empty by apply lookup_empty. lia. }
    destruct (step_start_settled s1 timeout_y ey S1 L1) as (S2 & M2 & C2 & T2 & R2 & _).
    set (s2 := step s1 (StartConnection timeout_y ey)) in *.
    rewrite C1 in C2.
    assert (L2 : connections s2 !! uuid_conn ex = Some cx).
    { rewrite C2, lookup_insert_ne by congruence. apply lookup_insert_eq. }
    destruct (step_end_settled s2 _ tx nx cx S2 L2 ltac:(lia)) as (S3 & M3 & C3 & T3 & R3 & _).
    set (s3 := step s2 (EndConnection (uuid_conn ex) tx nx)) in *.
    rewrite C2, delete_insert_ne, delete_insert_id in C3
      by (congruence || apply lookup_empty).
    assert (L3 : connections s3 !! uuid_conn ey = Some cy)
      by (rewrite C3; apply lookup_insert_eq).
    destruct (step_end_settled s3 _ ty ny cy S3 L3 ltac:(lia)) as (S4 & M4 & C4 & T4 & R4 & A4).
    set (s4 := step s3 (EndConnection (uuid_conn ey) ty ny)) in *.
    rewrite C3, delete_insert_id in C4 by apply lookup_empty.
    assert (T : Metrics.total_requests (metrics s4) = 2) by lia.
    split; [exact S4|]. split; [exact C4|]. split; [exact T|].
    split; [left; now rewrite R4, R3, R2, R1 | now rewrite A4, T].
  - (* both arrive, y is released first *)
    assert (L1 : len s1 < max_concurrent s1).
    { rewrite (len_of_connections _ _ C1), M1.
      rewrite map_size_insert_None, map_size_empty by apply lookup_empty. lia. }
    destruct (step_start_settled s1 timeout_y ey S1 L1) as (S2 & M2 & C2 & T2 & R2 & _).
    set (s2 := step s1 (StartConnection timeout_y ey)) in *.
    rewrite C1 in C2.
    assert (L2 : connections s2 !! uuid_conn ey = Some cy)
      by (rewrite C2; apply lookup_insert_eq).
    destruct (step_end_settled s2 _ ty ny cy S2 L2 ltac:(lia)) as (S3 & M3 & C3 & T3 & R3 & _).
    set (s3 := step s2 (EndConnection (uuid_conn ey) ty ny)) in *.
    rewrite C2, delete_insert_id in C3
      by (rewrite lookup_insert_ne by congruence; apply lookup_empty).
    assert (L3 : connections s3 !! uuid_conn ex = Some cx)
      by (rewrite C3; apply lookup_insert_eq).
    destruct (step_end_settled s3 _ tx nx cx S3 L3 ltac:(lia)) as (S4 & M4 & C4 & T4 & R4 & A4).
    set (s4 := step s3 (EndConnection (uuid_conn ex) tx nx)) in *.
    rewrite C3, delete_insert_id in C4 by apply lookup_empty.
    assert (T : Metrics.total_requests (metrics s4) = 2) by lia.
    split; [exact S4|]. split; [exact C4|]. split; [exact T|].
    split; [right; now rewrite R4, R3, R2, R1 | now rewrite A4, T].
Qed.

(** C8, as stated, fails: after an admission, a release 2 time units later
    and a second admission, [total_requests = 2] and
    [total_response_time = 2.0], so the derived average is 1.0, while
    [avg_response_time] still holds the 2.0 computed by the release. *)
Lemma C8_avg_is_stale_after_admission :
  let m := metrics (run (__init__ 100) stale_avg_calls) in
  Metrics.total_requests m = 2 /\
  Metrics.total_response_time m = 2%float /\
  Metrics.avg_response_time m = 2%float /\
  derived_avg m = 1%float /\
  Metrics.avg_response_time m <> derived_avg m.
Proof.
  intros m.
  assert (Ha : Metrics.avg_response_time m = 2%float) by (vm_compute; reflexivity).
  assert (Hd : derived_avg m = 1%float) by (vm_compute; reflexivity).
  repeat split; try (vm_compute; reflexivity).
  rewrite Ha, Hd. intros E.
  apply (f_equal (fun x => PrimFloat.eqb x 1)) in E. vm_compute in E. discriminate.
Qed.

(** C8, amended.  [avg_response_time] is 0 while [total_requests] is 0; an
    admission leaves it as it is; a release that removes a registered
    connection sets it to [total_response_time / total_requests], both read
    after the release.  When two connections are admitted with room for both
    and released after 1.0 and 3.0 time units, in any order, the metrics
    snapshot reports 2.0. *)
Theorem C8_avg_is_recomputed_by_release :
  (forall capacity cs,
     let s := run (__init__ capacity) cs in
     Metrics.total_requests (metrics s) = 0 ->
     Metrics.avg_response_time (metrics s) = 0%float) /\
  (forall capacity cs timeout env,
     let s := run (__init__ capacity) cs in
     Metrics.avg_response_time (metrics (state_of (start_connection s timeout env)))
       = Metrics.avg_response_time (metrics s)) /\
  (forall capacity cs conn_id t nested c,
     let s := run (__init__ capacity) cs in
     lock s = false ->
     connections s !! conn_id = Some c ->
     Metrics.total_requests (metrics s) < float_int_limit ->
     let m1 := metrics (state_of (end_connection s conn_id t nested)) in
     Metrics.avg_response_time m1
       = PrimFloat.div (Metrics.total_response_time m1)
                       (float_of_int (Metrics.total_requests m1)) /\
     Metrics.avg_response_time m1 = derived_avg m1) /\
  (forall capacity ex ey tx ty timeout_x timeout_y nx ny cs,
     2 <= capacity ->
     uuid_conn ex <> uuid_conn ey ->
     (PrimFloat.sub tx (now ex) = 1%float /\ PrimFloat.sub ty (now ey) = 3%float) \/
     (PrimFloat.sub tx (now ex) = 3%float /\ PrimFloat.sub ty (now ey) = 1%float) ->
     cs = [StartConnection timeout_x ex; EndConnection (uuid_conn ex) tx nx;
           StartConnection timeout_y ey; EndConnection (uuid_conn ey) ty ny] \/
     cs = [StartConnection timeout_x ex; StartConnection timeout_y ey;
           EndConnection (uuid_conn ex) tx nx; EndConnection (uuid_conn ey) ty ny] \/
     cs = [StartConnection timeout_x ex; StartConnection timeout_y ey;
           EndConnection (uuid_conn ey) ty ny; EndConnection (uuid_conn ex) tx nx] ->
     let s := run (__init__ capacity) cs in
     get_metrics s = Returns s (metrics s) /\
     Metrics.total_requests (metrics s) = 2 /\
     Metrics.avg_response_time (metrics s) = 2%float).
Proof.
  split; [|split; [|split]].
  - intros capacity cs s. apply (inv_avg s), inv_reachable.
  - intros capacity cs timeout env s.
    pose proof (inv_reachable capacity cs) as I. fold s in I.
    destruct (lock s) eqn:Hl.
    + now rewrite start_connection_locked.
    + destruct (start_connection_free s timeout env Hl (inv_maxsize s I))
        as (s' & -> & _ & _ & _ & _ & _ & _ & Ha & _). exact Ha.
  - intros capacity cs conn_id t nested c s Hl Hc Hlim m1.
    pose proof (inv_reachable capacity cs) as I. fold s in I.
    pose proof (registered_is_counted s conn_id c I Hc) as Hpos.
    pose proof (end_connection_present s conn_id t nested c _ Hl Hc
                  (py_truediv_in_range _ _ (conj Hpos Hlim))) as H.
    cbn zeta in H. destruct H as (_ & _ & Ht & _ & Htrt & Havg & _).
    assert (E : Metrics.avg_response_time m1
       = PrimFloat.div (Metrics.total_response_time m1)
                       (float_of_int (Metrics.total_requests m1))).
    { subst m1. now rewrite Havg, Htrt, Ht. }
    split; [exact E|]. rewrite E. unfold derived_avg. subst m1. rewrite Ht.
    destruct (Z.eqb_spec (Metrics.total_requests (metrics s)) 0); [lia|reflexivity].
  - intros capacity ex ey tx ty timeout_x timeout_y nx ny cs Hcap Hne Hd Hcs s.
    destruct (two_completed capacity ex ey tx ty timeout_x timeout_y nx ny cs
                Hcap Hne Hcs) as ((Hl & _) & _ & Ht & Htrt & Havg).
    fold s in Hl, Ht, Htrt, Havg.
    split; [now apply get_metrics_free|]. split; [exact Ht|].
    rewrite Havg.
    destruct Htrt as [-> | ->]; destruct Hd as [[-> ->] | [-> ->]];
      vm_compute; reflexivity.
Qed.

(** C8 with connections held from 10 to 11 and from 11 to 14. *)
Lemma C8_avg_is_recomputed_by_release_witness :
  Metrics.avg_response_time
    (metrics (run (__init__ 100)
                [ StartConnection (PyInt 30) (env_at "a" 10);
                  StartConnection (PyInt 30) (env_at "b" 11);
                  EndConnection "a" 11 (env_at "c" 11);
                  EndConnection "b" 14 (env_at "d" 14) ])) = 2%float.
Proof.
  destruct C8_avg_is_recomputed_by_release as (_ & _ & _ & H).
  apply (H 100 (env_at "a" 10) (env_at "b" 11) 11%float 14%float
           (PyInt 30) (PyInt 30) (env_at "c" 11) (env_at "d" 14)).
  - lia.
  - cbn. discriminate.
  - left. split; vm_compute; reflexivity.
  - right. left. reflexivity.
Defined.

(** * Further properties of the manager *)

(** ** Counters and queue, consistently *)

Lemma end_connection_raises_frame s conn_id t nested c e :
  lock s = false ->
  connections s !! conn_id = Some c ->
  py_truediv
    (PrimFloat.add (Metrics.total_response_time (metrics s))
                   (PrimFloat.sub t (Connection.start_time c)))
    (Metrics.total_requests (metrics s)) = inl e ->
  let s' := state_of (end_connection s conn_id t nested) in
  lock s' = false /\
  connections s' = connections s /\
  connection_queue s' = connection_queue s /\
  Metrics.active_connections (metrics s') = Metrics.active_connections (metrics s) /\
  Metrics.queued_connections (metrics s') = Metrics.queued_connections (metrics s).
Proof.
  intros Hl Hc Hd. unfold end_connection, with_lock. rewrite Hl.
  cbn [set_lock connections metrics]. rewrite Hc. cbn [set_lock metrics].
  rewrite Hd. cbn. now repeat split.
Qed.

Lemma consistent_init capacity : consistent (__init__ capacity).
Proof.
  split; cbn; try reflexivity; try lia.
  intros _ x Hx. now apply elem_of_nil in Hx.
Qed.

Lemma consistent_start_connection s timeout env :
  inv s -> consistent s ->
  consistent (state_of (start_connection s timeout env)).
Proof.
  intros I C. destruct (lock s) eqn:Hl.
  { now rewrite start_connection_locked. }
  destruct (start_connection_free s timeout env Hl (inv_maxsize s I))
    as (s' & -> & Hl' & _ & Hc & _ & Ha & _ & _ & _ & Hq).
  cbn [state_of].
  assert (Hreg : forall x, is_Some (connections s !! x) -> is_Some (connections s' !! x)).
  { intros x Hx. rewrite Hc. destruct (decide (uuid_conn env = x)) as [->|Hne].
    - rewrite lookup_insert_eq. eauto.
    - now rewrite lookup_insert_ne. }
  destruct (max_concurrent s <=? len s); destruct Hq as [Hq Hn]; split;
    rewrite ?Hq, ?Hn; cbn [Queue._put Queue.items Queue.get_log];
    try (intros _; exact Ha); try apply (con_unpromoted s C Hl);
    try apply (con_got s C); try (intros _; apply (con_unpromoted s C Hl)).
  - rewrite length_app, (con_queued s C). cbn. lia.
  - intros _ x Hx. apply elem_of_app in Hx as [Hx|Hx].
    + apply Hreg, (con_registered s C Hl), Hx.
    + apply list_elem_of_singleton in Hx as ->. rewrite Hc, lookup_insert_eq. eauto.
  - apply (con_queued s C).
  - intros _ x Hx. apply Hreg, (con_registered s C Hl), Hx.
Qed.

Lemma consistent_end_connection s conn_id t nested :
  inv s -> consistent s ->
  consistent (state_of (end_connection s conn_id t nested)).
Proof.
  intros I C. destruct (lock s) eqn:Hl.
  { now rewrite end_connection_locked. }
  destruct (connections s !! conn_id) as [c|] eqn:Hc.
  2:{ now rewrite end_connection_absent. }
  destruct (py_truediv
              (PrimFloat.add (Metrics.total_response_time (metrics s))
                             (PrimFloat.sub t (Connection.start_time c)))
              (Metrics.total_requests (metrics s))) as [e|avg] eqn:Hd.
  - pose proof (end_connection_raises_frame s conn_id t nested c e Hl Hc Hd) as H.
    cbn zeta in H. destruct H as (_ & Hcs & Hq & Ha & Hn).
    split; unfold len; rewrite ?Hq, ?Ha, ?Hn, ?Hcs; intros; now apply C.
  - pose proof (end_connection_present s conn_id t nested c avg Hl Hc Hd) as H.
    cbn zeta in H.
    set (s' := state_of (end_connection s conn_id t nested)) in *.
    destruct H as (_ & _ & _ & _ & _ & _ & _ & _ & Hcase).
    pose proof (con_queued s C) as Hn. pose proof (con_unpromoted s C Hl) as Hg.
    destruct (Queue.items (connection_queue s)) as [|w rest] eqn:Hi.
    + destruct Hcase as (_ & Hl' & Hq & Hn' & Ha).
      split; rewrite ?Hq, ?Hn', ?Hi, ?Hg; try (cbn; lia); now intros.
    + destruct Hcase as (_ & Hl' & Hit & Hgl & Hn' & _).
      split; rewrite ?Hit, ?Hgl, ?Hn', ?Hg; try (cbn; lia);
        try (intros Hf; rewrite Hl' in Hf; discriminate).
      rewrite Hn. cbn [length]. lia.
Qed.

Lemma consistent_step s c : inv s -> consistent s -> consistent (step s c).
Proof.
  intros I C. destruct c; cbn [step].
  - now apply consistent_start_connection.
  - now apply consistent_end_connection.
  - destruct (lock s) eqn:Hl.
    + now rewrite get_metrics_locked.
    + now rewrite get_metrics_free.
Qed.

Lemma consistent_run s cs : inv s -> consistent s -> consistent (run s cs).
Proof.
  revert s. induction cs as [|c cs IH]; intros s I C; [exact C|].
  apply IH; [apply inv_step, I | apply consistent_step; assumption].
Qed.

Lemma consistent_reachable capacity cs : consistent (run (__init__ capacity) cs).
Proof. apply consistent_run; [apply inv_init | apply consistent_init]. Qed.

(** X1. Whenever no call is in progress on a manager whose lock is free,
    [active_connections] is the size of the registry, and [get_metrics]
    returns a snapshot that says so and leaves the manager as it was. *)
Theorem X1_active_connections_is_registry_size (capacity : Z) (cs : list call) :
  let s := run (__init__ capacity) cs in
  lock s = false ->
  Metrics.active_connections (metrics s) = len s /\
  exists m,
    get_metrics s = Returns s m /\
    Metrics.active_connections m = Z.of_nat (size (connections s)).
Proof.
  intros s Hl. pose proof (con_active s (consistent_reachable capacity cs) Hl) as Ha.
  split; [exact Ha|]. exists (metrics s).
  split; [now apply get_metrics_free | exact Ha].
Qed.

(** X1 at [two_arrived]. *)
Lemma X1_active_connections_is_registry_size_witness :
  Metrics.active_connections (metrics two_arrived) = len two_arrived.
Proof.
  apply (X1_active_connections_is_registry_size 1 [first_arrival; second_arrival]).
  reflexivity.
Defined.

(** X2. After any sequence of calls, also one that ends in the deadlock,
    [queued_connections] is the number of ids in the wait queue. *)
Theorem X2_queued_connections_is_queue_length (capacity : Z) (cs : list call) :
  let s := run (__init__ capacity) cs in
  Metrics.queued_connections (metrics s)
    = Z.of_nat (length (Queue.items (connection_queue s))).
Proof. intros s. apply (con_queued s), consistent_reachable. Qed.

(** X3. No waiter is ever promoted.  While the lock is free nothing has been
    taken from the queue and every queued id is still in the registry; at
    most one id is ever taken, by the release that then holds the lock for
    ever. *)
Theorem X3_no_waiter_is_ever_promoted (capacity : Z) (cs : list call) :
  let s := run (__init__ capacity) cs in
  (length (Queue.get_log (connection_queue s)) <= 1)%nat /\
  (Queue.get_log (connection_queue s) <> [] -> lock s = true) /\
  (lock s = false ->
   Queue.items (connection_queue s) = Queue.put_log (connection_queue s) /\
   forall x, x ∈ Queue.items (connection_queue s) -> is_Some (get_connection s x)).
Proof.
  intros s. pose proof (consistent_reachable capacity cs) as C. fold s in C.
  pose proof (inv_reachable capacity cs) as I. fold s in I.
  split; [apply C|]. split.
  - intros Hg. destruct (lock s) eqn:Hl; [reflexivity|].
    now rewrite (con_unpromoted s C Hl) in Hg.
  - intros Hl. split.
    + now rewrite (inv_logs s I), (con_unpromoted s C Hl).
    + apply (con_registered s C Hl).
Qed.

(** X3 at [two_arrived], before and after the release of ["a"]. *)
Lemma X3_no_waiter_is_ever_promoted_witness :
  Queue.items (connection_queue two_arrived) = Queue.put_log (connection_queue two_arrived) /\
  lock (step two_arrived (EndConnection "a" 103 (env_at "c" 103))) = true.
Proof.
  split.
  - destruct (X3_no_waiter_is_ever_promoted 1 [first_arrival; second_arrival])
      as (_ & _ & H). apply H. reflexivity.
  - destruct (X3_no_waiter_is_ever_promoted 1
                [first_arrival; second_arrival; EndConnection "a" 103 (env_at "c" 103)])
      as (_ & H & _). apply H. vm_compute. discriminate.
Defined.

(** ** How a release ends *)

(** X4. On a manager reached from its construction (request counter within
    the float range) [end_connection] never raises: a registered id has been
    counted, so line 85 never divides by zero.  It returns, unless the lock
    is held for ever or the id is registered while somebody is queued; then
    it blocks. *)
Theorem X4_release_returns_or_blocks
    (capacity : Z) (cs : list call) (conn_id : string) (t : float) (nested : call_env) :
  let s := run (__init__ capacity) cs in
  Metrics.total_requests (metrics s) < float_int_limit ->
  let s1 := state_of (end_connection s conn_id t nested) in
  end_connection s conn_id t nested
    = (if lock s then Blocks s1
       else match get_connection s conn_id, Queue.items (connection_queue s) with
            | Some _, _ :: _ => Blocks s1
            | _, _ => Returns s1 tt
            end).
Proof.
  intros s Hlim s1. subst s1. unfold get_connection.
  pose proof (inv_reachable capacity cs) as I. fold s in I.
  destruct (lock s) eqn:Hl.
  { now rewrite end_connection_locked. }
  destruct (connections s !! conn_id) as [c|] eqn:Hc.
  2:{ now rewrite end_connection_absent. }
  pose proof (registered_is_counted s conn_id c I Hc) as Hpos.
  pose proof (end_connection_present s conn_id t nested c _ Hl Hc
                (py_truediv_in_range _ _ (conj Hpos Hlim))) as H.
  cbn zeta in H. destruct H as (_ & _ & _ & _ & _ & _ & _ & _ & Hcase).
  destruct (Queue.items (connection_queue s)); now destruct Hcase as [-> _].
Qed.

(** X4 at [one_registered]. *)
Lemma X4_release_returns_or_blocks_witness :
  end_connection one_registered "a" 103 (env_at "c" 103)
    = Returns (state_of (end_connection one_registered "a" 103 (env_at "c" 103))) tt.
Proof.
  apply (X4_release_returns_or_blocks 1 [first_arrival] "a" 103%float (env_at "c" 103)).
  vm_compute. reflexivity.
Defined.

(** ** The timeout *)

Lemma start_connection_timeout_irrelevant s t1 t2 env :
  Queue.maxsize (connection_queue s) = 0 ->
  start_connection s t1 env = start_connection s t2 env.
Proof.
  intros Hm. unfold start_connection, with_lock.
  destruct (lock s); [reflexivity|].
  cbn [set_lock max_concurrent connection_queue].
  now rewrite !put_unbounded by exact Hm.
Qed.

(** X5. The [timeout] argument has no effect: after any sequence of calls,
    two calls of [start_connection] that differ only in the timeout (an int
    of any sign, or a string) end alike and leave the same state. *)
Theorem X5_timeout_has_no_effect
    (capacity : Z) (cs : list call) (t1 t2 : pyarg) (env : call_env) :
  let s := run (__init__ capacity) cs in
  start_connection s t1 env = start_connection s t2 env.
Proof.
  intros s. apply start_connection_timeout_irrelevant, inv_reachable.
Qed.

(** ** The registry, call by call *)

Lemma start_connection_registers s timeout env s' r :
  start_connection s timeout env = Returns s' (Some r) ->
  r = uuid_conn env /\
  get_connection s' r = Some (new_connection (uuid_conn env) env).
Proof.
  unfold get_connection. start_cases s timeout env; intros H;
    try discriminate; injection H as <- <-; cbn;
    (split; [reflexivity | apply lookup_insert_eq]).
Qed.

(** X6. A call touches no registered connection but its own: for every
    state of the manager, [start_connection] leaves every id other than the
    one it drew as it was, [end_connection] every id other than its argument,
    and [get_metrics] all of them.  When [start_connection] returns an id,
    it is the id it drew and [get_connection] finds the record built for it;
    when [end_connection] returns, its id is not registered. *)
Theorem X6_calls_touch_only_their_own_connection (s : ConnectionManager.t) :
  (forall timeout env k,
     k <> uuid_conn env ->
     get_connection (state_of (start_connection s timeout env)) k = get_connection s k) /\
  (forall conn_id t nested k,
     k <> conn_id ->
     get_connection (state_of (end_connection s conn_id t nested)) k = get_connection s k) /\
  (forall k, get_connection (state_of (get_metrics s)) k = get_connection s k) /\
  (forall timeout env s' r,
     start_connection s timeout env = Returns s' (Some r) ->
     r = uuid_conn env /\
     get_connection s' r = Some (new_connection (uuid_conn env) env)) /\
  (forall conn_id t nested s',
     end_connection s conn_id t nested = Returns s' tt ->
     get_connection s' conn_id = None).
Proof.
  unfold get_connection. split; [|split; [|split; [|split]]].
  - intros timeout env k Hk. start_cases s timeout env;
      try reflexivity; now rewrite lookup_insert_ne.
  - intros conn_id t nested k Hk. end_cases s conn_id t;
      try reflexivity; now rewrite lookup_delete_ne.
  - intros k. unfold get_metrics, with_lock. now destruct (lock s).
  - intros timeout env s' r. start_cases s timeout env; intros H;
      try discriminate; injection H as <- <-; cbn;
      (split; [reflexivity | apply lookup_insert_eq]).
  - intros conn_id t nested s'. end_cases s conn_id t; intros H;
      try discriminate; injection H as <-; cbn;
      try assumption; apply lookup_delete_eq.
Qed.

(** X6 for the second arrival. *)
Lemma X6_calls_touch_only_their_own_connection_witness :
  get_connection two_arrived "a" = get_connection one_registered "a" /\
  get_connection two_arrived "b" = Some (new_connection "b" (env_at "b" 101)).
Proof.
  destruct (X6_calls_touch_only_their_own_connection one_registered)
    as (Hother & _ & _ & Hown & _).
  split.
  - apply (Hother (PyInt 0) (env_at "b" 101) "a"). discriminate.
  - apply (Hown (PyInt 0) (env_at "b" 101) two_arrived "b"). vm_compute. reflexivity.
Defined.

(** X7. The two running counters never go down: whatever the state of the
    manager and whatever calls follow, [total_requests] and
    [rejected_connections] are at least what they were. *)
Theorem X7_counters_never_decrease (s : ConnectionManager.t) (cs : list call) :
  Metrics.total_requests (metrics s) <= Metrics.total_requests (metrics (run s cs)) /\
  Metrics.rejected_connections (metrics s)
    <= Metrics.rejected_connections (metrics (run s cs)).
Proof.
  revert s. induction cs as [|c cs IH]; intros s; [cbn; lia|].
  cbn [run foldl]. specialize (IH (step s c)). unfold run in IH.
  enough (Metrics.total_requests (metrics s) <= Metrics.total_requests (metrics (step s c)) /\
          Metrics.rejected_connections (metrics s)
            <= Metrics.rejected_connections (metrics (step s c))) by lia.
  clear IH. destruct c as [timeout env|conn_id t nested|]; cbn [step].
  - start_cases s timeout env; lia.
  - end_cases s conn_id t; lia.
  - unfold get_metrics, with_lock. destruct (lock s); cbn; lia.
Qed.

(** ** Arrivals on a full registry *)

Lemma run_app s cs1 cs2 : run s (cs1 ++ cs2) = run (run s cs1) cs2.
Proof. apply foldl_app. Qed.

Lemma step_keeps_items s c :
  inv s -> lock (step s c) = false ->
  lock s = false /\
  forall x, x ∈ Queue.items (connection_queue s) ->
            x ∈ Queue.items (connection_queue (step s c)).
Proof.
  intros I Hl'. destruct (lock s) eqn:Hl.
  { rewrite step_locked in Hl' by exact Hl. congruence. }
  split; [reflexivity|]. intros x Hx.
  destruct c as [timeout env|conn_id t nested|]; cbn [step] in *.
  - destruct (start_connection_free s timeout env Hl (inv_maxsize s I))
      as (s' & -> & _ & _ & _ & _ & _ & _ & _ & _ & Hq).
    cbn [state_of]. destruct (max_concurrent s <=? len s); destruct Hq as [-> _].
    + cbn. apply elem_of_app. now left.
    + exact Hx.
  - revert Hl'. end_cases s conn_id t; congruence || (intros _; exact Hx).
  - now rewrite get_metrics_free.
Qed.

Lemma run_keeps_items s cs :
  inv s -> lock (run s cs) = false ->
  lock s = false /\
  forall x, x ∈ Queue.items (connection_queue s) ->
            x ∈ Queue.items (connection_queue (run s cs)).
Proof.
  revert s. induction cs as [|c cs IH]; intros s I Hl; [now split|].
  cbn [run foldl] in *. destruct (IH (step s c) (inv_step s c I) Hl) as [Hl1 Hsub].
  destruct (step_keeps_items s c I Hl1) as [Hl0 Hstep].
  split; [exact Hl0|]. intros x Hx. apply Hsub, Hstep, Hx.
Qed.

(** On any state that satisfies the invariants. *)
Lemma overflow_arrival_blocks
    (s : ConnectionManager.t) (during : list call) (timeout : pyarg)
    (env nested : call_env) (t : float) :
  inv s -> consistent s ->
  lock s = false ->
  max_concurrent s <= len s ->
  let s1 := state_of (start_connection s timeout env) in
  let s2 := run s1 during in
  Metrics.total_requests (metrics s2) < float_int_limit ->
  start_connection s timeout env = Returns s1 (Some (uuid_conn env)) /\
  uuid_conn env ∈ Queue.items (connection_queue s1) /\
  end_connection s2 (uuid_conn env) t nested
    = Blocks (state_of (end_connection s2 (uuid_conn env) t nested)).
Proof.
  intros I C Hl Hfull s1 s2 Hlim.
  destruct (start_connection_free s timeout env Hl (inv_maxsize s I))
    as (s' & Hs & _ & _ & _ & _ & _ & _ & _ & _ & Hq).
  assert (Es : s1 = s') by (subst s1; now rewrite Hs). rewrite <- Es in *.
  apply Z.leb_le in Hfull. rewrite Hfull in Hq. destruct Hq as [Hq _].
  assert (Hin : uuid_conn env ∈ Queue.items (connection_queue s1)).
  { rewrite Hq. cbn. apply elem_of_app. right. apply list_elem_of_singleton. reflexivity. }
  split; [exact Hs|]. split; [exact Hin|].
  assert (I1 : inv s1) by (apply (inv_step s (StartConnection timeout env)), I).
  assert (C1 : consistent s1)
    by (apply (consistent_step s (StartConnection timeout env)); assumption).
  assert (I2 : inv s2) by (apply inv_run, I1).
  assert (C2 : consistent s2) by (apply consistent_run; assumption).
  destruct (lock s2) eqn:Hl2.
  { now rewrite end_connection_locked. }
  destruct (run_keeps_items s1 during I1 Hl2) as [_ Hsub].
  specialize (Hsub _ Hin).
  destruct (con_registered s2 C2 Hl2 _ Hsub) as [c Hc].
  pose proof (registered_is_counted s2 _ c I2 Hc) as Hpos.
  pose proof (end_connection_present s2 _ t nested c _ Hl2 Hc
                (py_truediv_in_range _ _ (conj Hpos Hlim))) as H.
  cbn zeta in H. destruct H as (_ & _ & _ & _ & _ & _ & _ & _ & Hcase).
  fold s2 in Hsub.
  destruct (Queue.items (connection_queue s2)) as [|w rest].
  - now apply elem_of_nil in Hsub.
  - now destruct Hcase as [-> _].
Qed.

(** X8. A connection that arrives when the registry is full can never be
    released.  Its id is queued and registered by the same call, it stays
    queued as long as the lock is free, and so its [end_connection], after
    whatever other calls, does not return: it deadlocks, or finds the lock
    already held for ever. *)
Theorem X8_overflow_arrival_cannot_be_released
    (capacity : Z) (cs during : list call) (timeout : pyarg) (env nested : call_env)
    (t : float) :
  let s := run (__init__ capacity) cs in
  lock s = false ->
  max_concurrent s <= len s ->
  let s1 := state_of (start_connection s timeout env) in
  let s2 := run s1 during in
  Metrics.total_requests (metrics s2) < float_int_limit ->
  start_connection s timeout env = Returns s1 (Some (uuid_conn env)) /\
  uuid_conn env ∈ Queue.items (connection_queue s1) /\
  end_connection s2 (uuid_conn env) t nested
    = Blocks (state_of (end_connection s2 (uuid_conn env) t nested)).
Proof.
  intros s. apply overflow_arrival_blocks.
  - apply inv_reachable.
  - apply consistent_reachable.
Qed.

(** X8 for the second arrival, released after a metrics read. *)
Lemma X8_overflow_arrival_cannot_be_released_witness :
  end_connection (run two_arrived [GetMetrics]) "b" 104 (env_at "c" 104)
    = Blocks (state_of (end_connection (run two_arrived [GetMetrics]) "b" 104
                          (env_at "c" 104))).
Proof.
  apply (X8_overflow_arrival_cannot_be_released 1 [first_arrival] [GetMetrics]
           (PyInt 0) (env_at "b" 101) (env_at "c" 104) 104%float);
    vm_compute; (reflexivity || discriminate).
Defined.

(** ** Admission followed by release *)

(** On any state that satisfies the invariant. *)
Lemma start_then_end
    (s : ConnectionManager.t) (timeout : pyarg) (env nested : call_env) (t : float) :
  inv s ->
  lock s = false ->
  Queue.items (connection_queue s) = [] ->
  len s < max_concurrent s ->
  get_connection s (uuid_conn env) = None ->
  Metrics.total_requests (metrics s) + 1 < float_int_limit ->
  let s1 := state_of (start_connection s timeout env) in
  let s2 := state_of (end_connection s1 (uuid_conn env) t nested) in
  start_connection s timeout env = Returns s1 (Some (uuid_conn env)) /\
  end_connection s1 (uuid_conn env) t nested = Returns s2 tt /\
  lock s2 = false /\
  connections s2 = connections s /\
  connection_queue s2 = connection_queue s /\
  Metrics.total_requests (metrics s2) = Metrics.total_requests (metrics s) + 1 /\
  Metrics.active_connections (metrics s2) = len s /\
  Metrics.total_response_time (metrics s2)
    = PrimFloat.add (Metrics.total_response_time (metrics s)) (PrimFloat.sub t (now env)) /\
  Metrics.avg_response_time (metrics s2)
    = PrimFloat.div (Metrics.total_response_time (metrics s2))
                    (float_of_int (Metrics.total_requests (metrics s) + 1)).
Proof.
  intros I Hl Hi Hroom Hfresh Hlim s1 s2. unfold get_connection in Hfresh.
  pose proof (inv_total s I) as Htot. pose proof (len_nonneg s) as Hn.
  destruct (start_connection_free s timeout env Hl (inv_maxsize s I))
    as (s' & Hs & Hl1 & _ & Hc1 & Ht1 & _ & _ & _ & Htrt1 & Hq).
  assert (Es : s1 = s') by (subst s1; now rewrite Hs). rewrite <- Es in *. clear Es.
  destruct (Z.leb_spec (max_concurrent s) (len s)) as [Hfull|_]; [lia|].
  destruct Hq as [Hq1 _].
  assert (Hc : connections s1 !! uuid_conn env = Some (new_connection (uuid_conn env) env))
    by (rewrite Hc1; apply lookup_insert_eq).
  assert (Hrange : 0 < Metrics.total_requests (metrics s1) < float_int_limit)
    by (rewrite Ht1; lia).
  pose proof (end_connection_present s1 _ t nested _ _ Hl1 Hc
                (py_truediv_in_range _ _ Hrange)) as H.
  cbn zeta in H. fold s2 in H. rewrite Hq1, Hi in H.
  destruct H as (Hc2 & _ & Ht2 & _ & Htrt2 & Havg2 & _ & _ & Ho & Hl2 & Hq2 & _ & Ha2).
  assert (Ec : connections s2 = connections s).
  { rewrite Hc2, Hc1. now apply delete_insert_id. }
  split; [exact Hs|]. split; [exact Ho|]. split; [exact Hl2|]. split; [exact Ec|].
  split; [now rewrite Hq2|]. split; [now rewrite Ht2|].
  split; [rewrite Ha2; unfold len; now rewrite Ec|].
  split; [now rewrite Htrt2, Htrt1|].
  now rewrite Havg2, Htrt2, Htrt1, Ht1.
Qed.

(** X9. With nobody queued and room in the registry, admitting a connection
    under an id that is not registered and releasing it again both return
    and put the registry, the queue and the lock back as they were; the
    connection has been counted once, its duration added to
    [total_response_time], and the average recomputed. *)
Theorem X9_start_then_end_restores_the_registry
    (capacity : Z) (cs : list call) (timeout : pyarg) (env nested : call_env)
    (t : float) :
  let s := run (__init__ capacity) cs in
  lock s = false ->
  Queue.items (connection_queue s) = [] ->
  len s < max_concurrent s ->
  get_connection s (uuid_conn env) = None ->
  Metrics.total_requests (metrics s) + 1 < float_int_limit ->
  let s1 := state_of (start_connection s timeout env) in
  let s2 := state_of (end_connection s1 (uuid_conn env) t nested) in
  start_connection s timeout env = Returns s1 (Some (uuid_conn env)) /\
  end_connection s1 (uuid_conn env) t nested = Returns s2 tt /\
  lock s2 = false /\
  connections s2 = connections s /\
  connection_queue s2 = connection_queue s /\
  Metrics.total_requests (metrics s2) = Metrics.total_requests (metrics s) + 1 /\
  Metrics.active_connections (metrics s2) = len s /\
  Metrics.total_response_time (metrics s2)
    = PrimFloat.add (Metrics.total_response_time (metrics s)) (PrimFloat.sub t (now env)) /\
  Metrics.avg_response_time (metrics s2)
    = PrimFloat.div (Metrics.total_response_time (metrics s2))
                    (float_of_int (Metrics.total_requests (metrics s) + 1)).
Proof. intros s. apply start_then_end, inv_reachable. Qed.

(** X9 on the fresh manager. *)
Lemma X9_start_then_end_restores_the_registry_witness :
  connections
    (state_of (end_connection one_registered "a" 103 (env_at "c" 103)))
  = connections (__init__ 1).
Proof.
  refine (proj1 (proj2 (proj2 (proj2
            (X9_start_then_end_restores_the_registry 1 [] (PyInt 30)
               (env_at "a" 100) (env_at "c" 103) 103%float _ _ _ _ _)))));
    vm_compute; reflexivity.
Defined.

(** ** The wrapper [require_connection] *)

Lemma truthy_nonempty tok : tok <> "" -> truthy (Some tok) = Some tok.
Proof. destruct tok; [congruence | reflexivity]. Qed.

(** X10. The wrapper never gives the busy answer of lines 188-191.  After any
    sequence of calls, and whatever other threads do meanwhile, a wrapped
    call that draws a non-empty id and returns, returns what the wrapped
    function returned. *)
Theorem X10_busy_answer_is_never_given {A : Type} (f : g_ctx -> string + A)
    (capacity : Z) (cs before during : list call) (env nested : call_env) (t : float) :
  let s := run (__init__ capacity) cs in
  uuid_conn env <> "" ->
  forall s' r,
    require_connection f s env before during t nested = Done s' r ->
    exists a, r = Handled a.
Proof.
  intros s Hne s' r. unfold require_connection.
  pose proof (inv_reachable capacity cs) as I. fold s in I.
  destruct (lock s) eqn:Hl.
  { rewrite start_connection_locked by exact Hl. discriminate. }
  destruct (start_connection_free s (PyInt 30) env Hl (inv_maxsize s I))
    as (s1 & -> & _).
  cbn zeta. rewrite truthy_nonempty by exact Hne.
  destruct (end_connection _ _ _ _); try discriminate.
  destruct (get_connection _ _); [destruct (f _)|]; intros H;
    try discriminate; injection H as <- <-; eauto.
Qed.

(** X11. With nobody queued, room in the registry and no other call in
    between, a wrapped call hands the wrapped function the id it drew and
    the request id stored with the connection, ends as that function ends,
    by its value or by its exception, and has released the connection either
    way: the registry is as before.  For [proxy_request] the answer carries
    that id and that request id. *)
Theorem X11_wrapper_runs_the_handler_and_releases {A : Type} (f : g_ctx -> string + A)
    (capacity : Z) (cs : list call) (env nested : call_env) (t : float)
    (proxied_path : string) :
  let s := run (__init__ capacity) cs in
  lock s = false ->
  Queue.items (connection_queue s) = [] ->
  len s < max_concurrent s ->
  get_connection s (uuid_conn env) = None ->
  Metrics.total_requests (metrics s) + 1 < float_int_limit ->
  uuid_conn env <> "" ->
  let g := {| g_conn_id := uuid_conn env;
              g_request_id :=
                Connection.request_id (new_connection (uuid_conn env) env) |} in
  let s2 :=
    state_of (end_connection (state_of (start_connection s (PyInt 30) env))
                (uuid_conn env) t nested) in
  require_connection f s env [] [] t nested
    = match f g with
      | inl msg => Failed s2 (HandlerError msg)
      | inr a => Done s2 (Handled a)
      end /\
  require_connection (proxy_request (req env) proxied_path) s env [] [] t nested
    = Done s2 (Handled {| Proxied.status := "proxied";
                          Proxied.path := proxied_path;
                          Proxied.method := method (req env);
                          Proxied.request_id := g_request_id g;
                          Proxied.connection_id := uuid_conn env |}) /\
  connections s2 = connections s /\
  lock s2 = false.
Proof.
  intros s Hl Hi Hroom Hfresh Hlim Hne g s2.
  destruct (start_then_end s (PyInt 30) env nested t (inv_reachable capacity cs)
              Hl Hi Hroom Hfresh Hlim) as (Hs & He & Hl2 & Hc2 & _).
  fold s2 in He, Hl2, Hc2.
  assert (Hg : get_connection (state_of (start_connection s (PyInt 30) env)) (uuid_conn env)
               = Some (new_connection (uuid_conn env) env)).
  { apply (start_connection_registers s (PyInt 30) env _ _ Hs). }
  assert (Hw : forall B (h : g_ctx -> string + B),
    require_connection h s env [] [] t nested
      = match h g with
        | inl msg => Failed s2 (HandlerError msg)
        | inr a => Done s2 (Handled a)
        end).
  { intros B h. unfold require_connection. rewrite Hs. cbn zeta.
    rewrite truthy_nonempty by exact Hne. cbn [run foldl].
    rewrite Hs in Hg. cbn [state_of] in Hg. rewrite Hg.
    rewrite Hs in He. cbn [state_of] in He. rewrite He.
    fold g. now destruct (h g). }
  split; [apply Hw|]. split; [apply (Hw _ (proxy_request (req env) proxied_path))|].
  split; assumption.
Qed.

(** X10 for one proxied request on the fresh manager. *)
Lemma X10_busy_answer_is_never_given_witness :
  let s2 := state_of (end_connection one_registered "a" 103 (env_at "c" 103)) in
  let r := Handled {| Proxied.status := "proxied";
                      Proxied.path := "orders";
                      Proxied.method := "GET";
                      Proxied.request_id := "rq-1";
                      Proxied.connection_id := "a" |} in
  require_connection (proxy_request sample_request "orders") (__init__ 1)
    (env_at "a" 100) [] [] 103 (env_at "c" 103) = Done s2 r /\
  exists a, r = Handled a.
Proof.
  intros s2 r.
  assert (H : require_connection (proxy_request sample_request "orders") (__init__ 1)
                (env_at "a" 100) [] [] 103 (env_at "c" 103) = Done s2 r)
    by (vm_compute; reflexivity).
  split; [exact H|].
  refine (X10_busy_answer_is_never_given (proxy_request sample_request "orders")
            1 [] [] [] (env_at "a" 100) (env_at "c" 103) 103%float _ s2 r H).
  discriminate.
Defined.

(** X11 for a wrapped function that raises. *)
Lemma X11_wrapper_runs_the_handler_and_releases_witness :
  require_connection (fun _ : g_ctx => inl "boom" : string + Proxied.t)
    (__init__ 1) (env_at "a" 100) [] [] 103 (env_at "c" 103)
  = Failed (state_of (end_connection one_registered "a" 103 (env_at "c" 103)))
           (HandlerError "boom").
Proof.
  refine (proj1 (X11_wrapper_runs_the_handler_and_releases
                   (fun _ : g_ctx => inl "boom" : string + Proxied.t)
                   1 [] (env_at "a" 100) (env_at "c" 103) 103%float "orders"
                   _ _ _ _ _ _));
    vm_compute; (reflexivity || discriminate).
Defined.

(** X12. A request that arrives when the registry is full gets no answer
    from the wrapper: neither the busy answer nor the wrapped function's.
    Whatever other threads do meanwhile, the call ends blocked in its own
    release. *)
Theorem X12_request_on_full_registry_gets_no_answer
    {A : Type} (f : g_ctx -> string + A)
    (capacity : Z) (cs before during : list call) (env nested : call_env) (t : float) :
  let s := run (__init__ capacity) cs in
  lock s = false ->
  max_concurrent s <= len s ->
  uuid_conn env <> "" ->
  Metrics.total_requests
    (metrics (run (state_of (start_connection s (PyInt 30) env)) (before ++ during)))
    < float_int_limit ->
  exists s', require_connection f s env before during t nested = Stuck s'.
Proof.
  intros s Hl Hfull Hne Hlim.
  destruct (overflow_arrival_blocks s (before ++ during) (PyInt 30) env nested t
              (inv_reachable capacity cs) (consistent_reachable capacity cs)
              Hl Hfull Hlim) as (Hs & _ & Hb).
  unfold require_connection. rewrite Hs. cbn zeta.
  rewrite truthy_nonempty by exact Hne.
  rewrite Hs in Hb. cbn [state_of] in Hb. rewrite run_app in Hb.
  rewrite Hb. eauto.
Qed.

(** X12 for the second arrival. *)
Lemma X12_request_on_full_registry_gets_no_answer_witness :
  exists s',
    require_connection (proxy_request sample_request "orders") one_registered
      (env_at "b" 101) [] [GetMetrics] 104 (env_at "c" 104) = Stuck s'.
Proof.
  refine (X12_request_on_full_registry_gets_no_answer
            (proxy_request sample_request "orders") 1 [first_arrival] [] [GetMetrics]
            (env_at "b" 101) (env_at "c" 104) 104%float _ _ _ _);
    vm_compute; (reflexivity || discriminate).
Defined.

(** ** Arrivals without release *)

Lemma arrivals_all_registered (arrivals : list (pyarg * call_env)) :
  forall s,
    inv s -> lock s = false ->
    NoDup (map (fun a => uuid_conn a.2) arrivals) ->
    (forall a, a ∈ arrivals -> connections s !! uuid_conn a.2 = None) ->
    let s' := run s (map (fun a => StartConnection a.1 a.2) arrivals) in
    lock s' = false /\
    max_concurrent s' = max_concurrent s /\
    len s' = len s + Z.of_nat (length arrivals) /\
    Metrics.active_connections (metrics s')
      = (if length arrivals is O then Metrics.active_connections (metrics s) else len s') /\
    Metrics.queued_connections (metrics s')
      = Metrics.queued_connections (metrics s)
        + Z.max 0 (len s + Z.of_nat (length arrivals)
                   - Z.max (len s) (max_concurrent s)) /\
    Metrics.rejected_connections (metrics s') = Metrics.rejected_connections (metrics s).
Proof.
  induction arrivals as [|[timeout env] rest IH]; intros s I Hl Hnd Hfresh s'.
  { subst s'. cbn. split; [exact Hl|]. repeat split; lia. }
  subst s'. cbn [map run foldl length fst snd step].
  destruct (start_connection_free s timeout env Hl (inv_maxsize s I))
    as (s1 & Hs & Hl1 & Hm1 & Hc1 & _ & Ha1 & Hr1 & _ & _ & Hq).
  pose proof (inv_start_connection s timeout env I) as I1.
  rewrite Hs in I1 |- *. cbn [state_of] in *.
  apply NoDup_cons in Hnd as [Hnotin Hnd]. cbn [map fst snd] in Hnotin.
  assert (Hlen1 : len s1 = len s + 1).
  { unfold len. rewrite Hc1, map_size_insert_None; [lia|].
    apply (Hfresh (timeout, env)). apply elem_of_cons. now left. }
  assert (Hfresh1 : forall a, a ∈ rest -> connections s1 !! uuid_conn a.2 = None).
  { intros a Ha. rewrite Hc1, lookup_insert_ne.
    - apply Hfresh. apply elem_of_cons. now right.
    - intros E. apply Hnotin. rewrite E.
      apply (list_elem_of_fmap_2 (fun a => uuid_conn a.2)), Ha. }
  destruct (IH s1 I1 Hl1 Hnd Hfresh1) as (Hl' & Hm' & Hlen' & Ha' & Hq' & Hr').
  fold (run s1 (map (fun a => StartConnection a.1 a.2) rest)).
  set (s' := run s1 (map (fun a => StartConnection a.1 a.2) rest)) in *.
  assert (Hq1 : Metrics.queued_connections (metrics s1)
                = Metrics.queued_connections (metrics s)
                  + (if max_concurrent s <=? len s then 1 else 0)).
  { destruct (max_concurrent s <=? len s); destruct Hq as [_ ->]; lia. }
  split; [exact Hl'|]. split; [congruence|]. split; [lia|]. split.
  - destruct rest; [subst s'; exact Ha1 | exact Ha'].
  - split; [|congruence]. rewrite Hq', Hq1, Hlen1, Hm1.
    destruct (Z.leb_spec (max_concurrent s) (len s)); lia.
Qed.

(** X13. [max_concurrent] does not bound the registry.  After [n] arrivals
    under pairwise different ids and no release, whatever their timeouts
    and whatever [max_concurrent] is, all [n] are registered, none has been
    rejected, and [queued_connections] counts those that came after the
    [max_concurrent]-th. *)
Theorem X13_every_arrival_is_registered
    (capacity : Z) (arrivals : list (pyarg * call_env)) :
  NoDup (map (fun a => uuid_conn a.2) arrivals) ->
  let s := run (__init__ capacity) (map (fun a => StartConnection a.1 a.2) arrivals) in
  let n := Z.of_nat (length arrivals) in
  lock s = false /\
  len s = n /\
  Metrics.active_connections (metrics s) = n /\
  Metrics.rejected_connections (metrics s) = 0 /\
  Metrics.queued_connections (metrics s) = Z.max 0 (n - Z.max 0 capacity).
Proof.
  intros Hnd s n.
  destruct (arrivals_all_registered arrivals (__init__ capacity)
              (inv_init capacity) eq_refl Hnd (fun a _ => lookup_empty _))
    as (Hl & _ & Hlen & Ha & Hq & Hr).
  fold s in Hl, Hlen, Ha, Hq, Hr. fold n in Hlen, Hq.
  change (len (__init__ capacity)) with 0 in *.
  change (max_concurrent (__init__ capacity)) with capacity in *.
  cbn [__init__ metrics _initialize_metrics Metrics.queued_connections
       Metrics.rejected_connections Metrics.active_connections] in *.
  split; [exact Hl|]. split; [lia|]. split.
  - rewrite Ha. clear Ha Hq. subst n. destruct (length arrivals); [reflexivity | lia].
  - split; [exact Hr | lia].
Qed.

(** X13 for the two arrivals of [two_arrived]. *)
Lemma X13_every_arrival_is_registered_witness :
  len two_arrived = 2 /\ Metrics.queued_connections (metrics two_arrived) = 1.
Proof.
  destruct (X13_every_arrival_is_registered 1
              [(PyInt 30, env_at "a" 100); (PyInt 0, env_at "b" 101)])
    as (_ & Hlen & _ & _ & Hq).
  - apply (bool_decide_unpack _). vm_compute. exact I.
  - split; [exact Hlen | exact Hq].
Defined.
